(** * Quantisation and hex export of CNN parameters

    A shallow embedding of [python/src/quantize.py] and
    [python/src/convert_to_hex.py], and the properties of the design
    document that concern them.

    Modelling conventions.
    - A Python [float] and the elements of a real-valued tensor are exact
      rationals ([Q]): the design document speaks of real numbers, and every
      finite float is a rational.  The tensor operations of [torch]
      (division, clamp and conversion of a [float32] tensor) are modelled
      on these rationals without their rounding, infinities and NaN.
    - In [compute_scale_shift] the only float operation is the product of
      [real_scale] by a power of two, which is exact as long as it is a
      finite float: there the range of the floats is modelled, a product
      that reaches [2^1024] is an infinity and [round] raises an
      [OverflowError] on it.
    - A Python [int] is a [Z].  The integer tensors the quantisers return
      are 32-bit ([torch.int]); in the hex export the values are integers
      without a width, and [val + max_val] is computed exactly.
    - A raised exception is the [Raise] branch of [result]; the exception
      classes and their messages are those of the source.
    - A tensor is a nested sequence; [flatten] lists its scalars in
      row-major order.
    - A [dict] is an insertion-ordered association list ([PyDict]). *)

From Stdlib Require Import ZArith QArith Qround Qabs Qpower Lqa Lia.
From Stdlib Require Import String Ascii List Bool.
Import ListNotations.

Local Open Scope Z_scope.

(** ** Python values, exceptions and numeric primitives *)

Module Py.

Inductive exn : Type :=
| ValueError (msg : string)
| RuntimeError (msg : string)
| ZeroDivisionError (msg : string)
| OverflowError (msg : string)
| KeyError (key : string).

Inductive result (A : Type) : Type :=
| Ok (a : A)
| Raise (e : exn).
Arguments Ok {A} a.
Arguments Raise {A} e.

Definition bind {A B : Type} (m : result A) (k : A -> result B) : result B :=
  match m with
  | Ok a => k a
  | Raise e => Raise e
  end.

(** [round(x)] on a float, and [Tensor.round()]: round to nearest, ties to
    the even neighbour. *)
Definition round (x : Q) : Z :=
  let f := Qfloor x in
  match (x - inject_Z f ?= 1 # 2)%Q with
  | Lt => f
  | Gt => f + 1
  | Eq => if Z.even f then f else f + 1
  end.

(** The magnitudes from [float_limit] on are not finite floats: the
    largest finite float is [2^1024 - 2^971]. *)
Definition float_limit : Z := 2 ^ 1024.

Definition int_too_large : exn :=
  OverflowError "int too large to convert to float".

Definition infinity_to_int : exn :=
  OverflowError "cannot convert float infinity to integer".

(** The conversion of the int operand of [float * int].  An int that
    rounds to [2^1024] or more is refused; the others are converted, exactly
    when the int is a float, as every power of two below [2^1024] is. *)
Definition float_of_int (n : Z) : result Q :=
  if float_limit - 2 ^ 970 <=? Z.abs n then Raise int_too_large
  else Ok (inject_Z n).

(** [round(x)] on the float product [x]: a product that reaches
    [float_limit] is an infinity, which [round] refuses. *)
Definition round_float (x : Q) : result Z :=
  if Qle_bool (inject_Z float_limit) (Qabs x) then Raise infinity_to_int
  else Ok (round x).

(** [a << n]: a negative shift count is a [ValueError]. *)
Definition lshift (a n : Z) : result Z :=
  if n <? 0 then Raise (ValueError "negative shift count")
  else Ok (Z.shiftl a n).

(** [2**n]: an [int] for [0 <= n], the float [2^n] otherwise. *)
Definition pow2 (n : Z) : Q := ((2 # 1) ^ n)%Q.

(** [a / b] on floats. *)
Definition div (a b : Q) : result Q :=
  if Qeq_bool b 0 then Raise (ZeroDivisionError "float division by zero")
  else Ok (a / b)%Q.

(** The builtin [max(a, b)]: [b] when [b > a], else [a]. *)
Definition max (a b : Q) : Q :=
  match (a ?= b)%Q with Lt => b | _ => a end.

(** The builtin [min(a, b)], as the reductions use it. *)
Definition min (a b : Q) : Q :=
  match (b ?= a)%Q with Lt => b | _ => a end.

(** Conversion of a float with a fractional part to an integer: truncation
    toward zero. *)
Definition to_int (x : Q) : Z :=
  if Qle_bool 0 x then Qfloor x else Qceiling x.

End Py.

Export Py(result, Ok, Raise, exn).

Declare Scope py_scope.
Delimit Scope py_scope with py.
Notation "x <- m ;; k" := (Py.bind m (fun x => k))
  (at level 61, m at next level, right associativity) : py_scope.
Notation "' pat <- m ;; k" := (Py.bind m (fun x => match x with pat => k end))
  (at level 61, pat pattern, m at next level, right associativity) : py_scope.

(** ** Strings: the [in] test and [str.replace] *)

Module Str.

Local Open Scope string_scope.

(** [sub in s]. *)
Fixpoint contains (sub s : string) : bool :=
  String.prefix sub s ||
  match s with
  | EmptyString => false
  | String _ s' => contains sub s'
  end.

(** [s.replace(old, new)] for a non-empty [old] (both call sites pass a
    literal): scan from the left, replace each occurrence and resume after
    it; [skip] counts the characters of a replaced occurrence still to be
    dropped. *)
Fixpoint replace_from (old new : string) (skip : nat) (s : string) : string :=
  match s with
  | EmptyString => EmptyString
  | String c s' =>
      match skip with
      | S k => replace_from old new k s'
      | O =>
          if String.prefix old s
          then new ++ replace_from old new (String.length old - 1) s'
          else String c (replace_from old new 0 s')
      end
  end.

Definition replace (old new s : string) : string := replace_from old new 0 s.

Definition newline : string := String (ascii_of_nat 10) EmptyString.

End Str.

(** ** Tensors *)

Module Tensor.

#[warnings="-register-all"] Inductive tensor (A : Type) : Type :=
| Scalar (a : A)
| Dim (rows : list (tensor A)).
Arguments Scalar {A} a.
Arguments Dim {A} rows.

(** [Tensor.flatten()]: the scalars in row-major order. *)
Fixpoint flatten {A : Type} (t : tensor A) : list A :=
  match t with
  | Scalar a => [a]
  | Dim rows => flat_map flatten rows
  end.

(** An elementwise operation. *)
Fixpoint tmap {A B : Type} (f : A -> B) (t : tensor A) : tensor B :=
  match t with
  | Scalar a => Scalar (f a)
  | Dim rows => Dim (map (tmap f) rows)
  end.

Definition numel {A : Type} (t : tensor A) : nat := List.length (flatten t).

Definition empty_reduction (op : string) : exn :=
  Py.RuntimeError
    (op ++ "(): Expected reduction dim to be specified for input.numel() == 0. Specify the reduction dim with the 'dim' argument.").

(** [Tensor.min()] and [Tensor.max()] over all elements; they raise on a
    tensor without elements. *)
Definition min (t : tensor Q) : result Q :=
  match flatten t with
  | [] => Raise (empty_reduction "min")
  | x :: xs => Ok (fold_left Py.min xs x)
  end.

Definition max (t : tensor Q) : result Q :=
  match flatten t with
  | [] => Raise (empty_reduction "max")
  | x :: xs => Ok (fold_left Py.max xs x)
  end.

(** [torch.clamp(x, lo, hi)] on one element: [min(max(x, lo), hi)]. *)
Definition clamp (x lo hi : Q) : Q :=
  let y := if Qle_bool lo x then x else lo in
  if Qle_bool y hi then y else hi.

(** [Tensor.to(torch.int)] and [Tensor.to(torch.int32)] on one element:
    truncation toward zero into a signed 32-bit integer.  A value outside
    the 32-bit range has no defined conversion; the definition takes what
    the x86 conversion instructions return for it, the least 32-bit
    integer.  The properties below use of that choice only that it is a
    32-bit value. *)
Definition int32_min : Z := - 2 ^ 31.
Definition int32_max : Z := 2 ^ 31 - 1.

Definition int32_of_Z (z : Z) : Z :=
  if (int32_min <=? z) && (z <=? int32_max) then z else int32_min.

Definition to_int32 (x : Q) : Z := int32_of_Z (Py.to_int x).

End Tensor.

Export Tensor(tensor, Scalar, Dim, flatten, tmap).

(** ** Insertion-ordered dictionaries *)

Module PyDict.

Definition dict (V : Type) : Type := list (string * V).

Definition empty {V : Type} : dict V := [].

(** [d.get(k)] / [d[k]]. *)
Fixpoint get {V : Type} (k : string) (d : dict V) : option V :=
  match d with
  | [] => None
  | (k', v) :: d' => if String.eqb k k' then Some v else get k d'
  end.

(** [k in d]. *)
Definition mem {V : Type} (k : string) (d : dict V) : bool :=
  match get k d with Some _ => true | None => false end.

(** [d[k]]: a missing key is a [KeyError]. *)
Definition getitem {V : Type} (k : string) (d : dict V) : result V :=
  match get k d with
  | Some v => Ok v
  | None => Raise (Py.KeyError k)
  end.

(** [d[k] = v]: an existing key keeps its position, a new one goes last. *)
Fixpoint set {V : Type} (k : string) (v : V) (d : dict V) : dict V :=
  match d with
  | [] => [(k, v)]
  | (k', v') :: d' =>
      if String.eqb k k' then (k, v) :: d' else (k', v') :: set k v d'
  end.

End PyDict.

(** ** quantize.py *)

Module Quantize.

Local Open Scope string_scope.
Local Open Scope Z_scope.

(** [quantize_tensor(tensor, num_bits)].  The quotient, its rounding and
    the clamp are those of the rationals: the rounding of the [float32]
    quotient and of the clamp bounds to [float32] is not modelled. *)
Definition quantize_tensor (t : tensor Q) (num_bits : Z)
  : result (tensor Z * Q) :=
  let qmin := (- Py.pow2 (num_bits - 1))%Q in
  let qmax := (Py.pow2 (num_bits - 1) - 1)%Q in
  (min_val <- Tensor.min t ;;
   max_val <- Tensor.max t ;;
   let max_abs := Py.max (Qabs min_val) (Qabs max_val) in
   scale <- (if negb (Qeq_bool max_abs 0) then Py.div max_abs qmax
             else Ok 1%Q) ;;
   let tensor_int :=
     tmap (fun x =>
             Tensor.to_int32
               (Tensor.clamp (inject_Z (Py.round (x / scale))) qmin qmax)) t in
   Ok (tensor_int, scale))%py.

(** [quantize_bias_tensor(bias_tensor, input_scale, weight_scale, num_bits)].
    The tensor division by [scale] is a float division: it never raises,
    and for [scale = 0] it yields infinities and NaN, which are outside this
    model; the definition stands for the code where [scale] is not zero. *)
Definition quantize_bias_tensor (bias_tensor : tensor Q)
           (input_scale weight_scale : Q) (num_bits : Z) : tensor Z * Q :=
  let qmin := (- Py.pow2 (num_bits - 1))%Q in
  let qmax := (Py.pow2 (num_bits - 1) - 1)%Q in
  let scale := (input_scale * weight_scale)%Q in
  let tensor_int :=
    tmap (fun x =>
            Tensor.to_int32
              (Tensor.clamp (inject_Z (Py.round (x / scale))) qmin qmax))
         bias_tensor in
  (tensor_int, scale).

Definition cannot_represent : exn :=
  Py.ValueError "Cannot represent scale factor in given bit-width".

(** The body of [for shift in range(max_shift)], from [shift] on, with
    [todo] iterations left.  [real_scale] is a float: in
    [real_scale * (1 << shift)] the int is converted to a float and the
    product is exact, or an infinity. *)
Fixpoint scale_shift_loop (real_scale : Q) (scale_bits : Z)
         (todo : nat) (shift : Z) : result (Z * Z) :=
  match todo with
  | O => Raise cannot_represent
  | S todo' =>
      (pow <- Py.lshift 1 shift ;;
       factor <- Py.float_of_int pow ;;
       scale_int <- Py.round_float (real_scale * factor) ;;
       bound <- Py.lshift 1 scale_bits ;;
       if scale_int <? bound then Ok (scale_int, shift)
       else scale_shift_loop real_scale scale_bits todo' (shift + 1))%py
  end.

Definition compute_scale_shift (real_scale : Q) (scale_bits max_shift : Z)
  : result (Z * Z) :=
  scale_shift_loop real_scale scale_bits (Z.to_nat max_shift) 0.

(** The entries of the returned dictionary: ["quantized"], ["scale"] and,
    for a bias, ["requant"]. *)
Record requant_params : Type := mkRequant {
  real_scale : Q;
  scale_int : Z;
  shift : Z
}.

Record quantized_param : Type := mkParam {
  quantized : tensor Z;
  scale : Q;
  requant : option requant_params
}.

(** The local variables of [quantize_model_weights] that the loop updates. *)
Record chain_state : Type := mkChain {
  quantized_params : PyDict.dict quantized_param;
  layer_scales : PyDict.dict (Q * Q);
  prev_output_scale : Q
}.

Definition chain_init : chain_state :=
  mkChain PyDict.empty PyDict.empty 1%Q.

(** The branch the [if]/[elif] on the parameter name selects. *)
Inductive param_kind : Type := Weight | Bias | Other.

Definition classify (name : string) : param_kind :=
  if Str.contains "weight" name then Weight
  else if Str.contains "bias" name then Bias
  else Other.

Definition weight_not_quantized (name : string) : exn :=
  Py.RuntimeError ("Weight for " ++ name ++ " not quantized yet").

(** One iteration of [for name, param in model.named_parameters()]. *)
Definition chain_step (num_bits bias_bits : Z) (st : chain_state)
           (entry : string * tensor Q) : result chain_state :=
  let '(name, param) := entry in
  match classify name with
  | Weight =>
      ('(q_w, w_scale) <- quantize_tensor param num_bits ;;
       Ok (mkChain
             (PyDict.set name (mkParam q_w w_scale None)
                         (quantized_params st))
             (PyDict.set name (prev_output_scale st, w_scale)
                         (layer_scales st))
             (prev_output_scale st)))%py
  | Bias =>
      let weight_name := Str.replace "bias" "weight" name in
      if negb (PyDict.mem weight_name (quantized_params st))
      then Raise (weight_not_quantized name)
      else
        ('(in_scale, w_scale) <- PyDict.getitem weight_name (layer_scales st) ;;
         let '(q_b, b_scale) :=
           quantize_bias_tensor param in_scale w_scale bias_bits in
         let out_scale := 1%Q in
         real_requant_scale <- Py.div out_scale (in_scale * w_scale) ;;
         '(scale_int, shift) <- compute_scale_shift real_requant_scale 16 31 ;;
         Ok (mkChain
               (PyDict.set name
                  (mkParam q_b b_scale
                     (Some (mkRequant real_requant_scale scale_int shift)))
                  (quantized_params st))
               (layer_scales st)
               out_scale))%py
  | Other => Ok st
  end.

Fixpoint chain_run (num_bits bias_bits : Z) (st : chain_state)
         (params : list (string * tensor Q)) : result chain_state :=
  match params with
  | [] => Ok st
  | entry :: params' =>
      (st' <- chain_step num_bits bias_bits st entry ;;
       chain_run num_bits bias_bits st' params')%py
  end.

(** [quantize_model_weights(model, num_bits, bias_bits)]; [model] stands
    for the sequence [model.named_parameters()] yields. *)
Definition quantize_model_weights (model : list (string * tensor Q))
           (num_bits bias_bits : Z) : result (PyDict.dict quantized_param) :=
  (st <- chain_run num_bits bias_bits chain_init model ;;
   Ok (quantized_params st))%py.

End Quantize.

(** ** convert_to_hex.py *)

Module ConvertToHex.

Local Open Scope string_scope.
Local Open Scope Z_scope.

(** The digits of [format(_, 'x')], in order of value. *)
Definition hex_alphabet : string := "0123456789abcdef".

(** The digit of a value below sixteen. *)
Definition hex_digit (d : Z) : ascii :=
  match String.get (Z.to_nat d) hex_alphabet with
  | Some c => c
  | None => "0"%char
  end.

(** The hexadecimal digits of a natural number, most significant first,
    accumulated from the least significant one. *)
Fixpoint hex_digits_acc (fuel : nat) (n : Z) (acc : string) : string :=
  let acc' := String (hex_digit (n mod 16)) acc in
  match fuel with
  | O => acc'
  | S fuel' => if n / 16 =? 0 then acc' else hex_digits_acc fuel' (n / 16) acc'
  end.

Definition hex_of_nat (n : Z) : string :=
  hex_digits_acc (Z.to_nat (Z.log2 n)) n "".

Fixpoint zeros (n : nat) : string :=
  match n with
  | O => ""
  | S n' => String "0" (zeros n')
  end.

(** [format(val, f'0{width}x')] for an integer [val]: sign, then zeros up
    to the minimum width, then the lowercase digits of the magnitude.  A
    negative [width] makes the format specifier ill-formed: a [ValueError],
    whose message names the specifier in recent versions of Python and is
    kept here without it. *)
Definition format_hex (val width : Z) : result string :=
  if width <? 0
  then Raise (Py.ValueError
                "Invalid format specifier for object of type 'int'")
  else
    let digits := hex_of_nat (Z.abs val) in
    let sign := if val <? 0 then "-" else "" in
    let pad := (Z.to_nat width - String.length sign - String.length digits)%nat in
    Ok (sign ++ zeros pad ++ digits).

(** The conversion to two's complement of one value. *)
Definition twos_complement (val max_val : Z) : Z :=
  if val <? 0 then val + max_val else val.

(** The loop [for val in flat], returning the text written so far. *)
Fixpoint write_values (flat : list Z) (max_val hex_digits : Z)
         (written : string) : result string :=
  match flat with
  | [] => Ok written
  | val :: flat' =>
      let val_tc := twos_complement val max_val in
      (val_hex <- format_hex val_tc hex_digits ;;
       write_values flat' max_val hex_digits
                    (written ++ val_hex ++ Str.newline))%py
  end.

(** What a run leaves behind: the files written, by path, and the lines
    printed.  The requantisation document is kept as the value handed to
    [json.dump]. *)
Inductive file_content : Type :=
| Text (s : string)
| Json (doc : PyDict.dict Quantize.requant_params).

Record world : Type := mkWorld {
  files : PyDict.dict file_content;
  stdout : list string
}.

(** [weights_to_hexfile(tensor_int, filename, width_bits)] *)
Definition weights_to_hexfile (tensor_int : tensor Z) (filename : string)
           (width_bits : Z) (w : world) : result world :=
  let flat := flatten tensor_int in
  let max_val := 2 ^ width_bits in
  let hex_digits := width_bits / 4 in
  (text <- write_values flat max_val hex_digits "" ;;
   Ok (mkWorld (PyDict.set filename (Text text) (files w)) (stdout w)))%py.

(** The [width_bits] the export loop passes for a parameter name. *)
Definition export_width (name : string) : Z :=
  if Str.contains "bias" name then 8 else 2.

(** The loop [for name, data in quantized_params.items()], threading the
    world and [requant_info]. *)
Fixpoint export_loop (items : PyDict.dict Quantize.quantized_param)
         (base_path : string)
         (requant_info : PyDict.dict Quantize.requant_params)
         (w : world) : result (PyDict.dict Quantize.requant_params * world) :=
  match items with
  | [] => Ok (requant_info, w)
  | (name, data) :: items' =>
      let filename := base_path ++ Str.replace "." "_" name ++ ".hex" in
      let tensor := Quantize.quantized data in
      (w1 <- weights_to_hexfile tensor filename (export_width name) w ;;
       let line := "Saved " ++ name ++ " to " ++ filename in
       let w2 := mkWorld (files w1) (List.app (stdout w1) [line]) in
       let requant_info' :=
         match Quantize.requant data with
         | Some r => PyDict.set name r requant_info
         | None => requant_info
         end in
       export_loop items' base_path requant_info' w2)%py
  end.

(** [save_model_weights_hex(quantized_params, base_path)], in a world where
    every directory exists and every path can be written: the errors of
    [os.makedirs] and of [open] are not modelled, and what is stated of a
    call that returns here is stated of the calls that return. *)
Definition save_model_weights_hex
           (quantized_params : PyDict.dict Quantize.quantized_param)
           (base_path : string) (w : world) : result world :=
  ('(requant_info, w1) <- export_loop quantized_params base_path PyDict.empty w ;;
   let line := "Saved requant params to " ++ base_path ++ "requant_params.json" in
   Ok (mkWorld
         (PyDict.set (base_path ++ "requant_params.json") (Json requant_info)
                     (files w1))
         (List.app (stdout w1) [line])))%py.

End ConvertToHex.

(** ** Vocabulary of the design document *)

Module Spec.

Local Open Scope string_scope.
Local Open Scope Z_scope.

(** The signed range of a bit width: [[-2^(bits-1), 2^(bits-1)-1]]. *)
Definition in_range (bits v : Z) : Prop :=
  - 2 ^ (bits - 1) <= v <= 2 ^ (bits - 1) - 1.

(** The mantissa of a candidate shift, and the bound it has to meet. *)
Definition mantissa (real_scale : Q) (sh : Z) : Z :=
  Py.round (real_scale * inject_Z (2 ^ sh)).

Definition fits (real_scale : Q) (scale_bits sh : Z) : Prop :=
  mantissa real_scale sh < 2 ^ scale_bits.

(** The product [real_scale * 2^sh] of the search is a finite float: the
    power of two is one, and the product stays below [2^1024]. *)
Definition finite_product (real_scale : Q) (sh : Z) : bool :=
  (sh <? 1024)
  && negb (Qle_bool (inject_Z Py.float_limit)
                    (Qabs (real_scale * inject_Z (2 ^ sh)))).

(** Reading a hexadecimal numeral back: the value of a digit is its
    position in the alphabet. *)
Fixpoint position (c : ascii) (alphabet : string) (i : Z) : option Z :=
  match alphabet with
  | EmptyString => None
  | String c' rest => if Ascii.eqb c c' then Some i else position c rest (i + 1)
  end.

Definition hex_digit_value (c : ascii) : option Z :=
  position c ConvertToHex.hex_alphabet 0.
Arguments hex_digit_value : simpl never.

Fixpoint hex_value_acc (s : string) (acc : Z) : option Z :=
  match s with
  | EmptyString => Some acc
  | String c s' =>
      match hex_digit_value c with
      | Some d => hex_value_acc s' (16 * acc + d)
      | None => None
      end
  end.

(** The value of a string of lowercase hexadecimal digits; [None] when a
    character is not such a digit. *)
Definition hex_value (s : string) : option Z := hex_value_acc s 0.

Fixpoint lowercase_hex (s : string) : Prop :=
  match s with
  | EmptyString => True
  | String c s' => hex_digit_value c <> None /\ lowercase_hex s'
  end.

(** The text of a file whose lines are [lines]. *)
Fixpoint unlines (lines : list string) : string :=
  match lines with
  | [] => ""
  | l :: lines' => l ++ Str.newline ++ unlines lines'
  end.

(** Reading a value of [width_bits] bits back from its two's complement. *)
Definition decode_twos_complement (width_bits u : Z) : Z :=
  if u <? 2 ^ (width_bits - 1) then u else u - 2 ^ width_bits.

(** The lines of a text, each ended by a newline; [cur] is the line being
    read.  A last line without its newline is kept when it is not empty. *)
Fixpoint lines_from (text cur : string) : list string :=
  match text with
  | EmptyString => match cur with EmptyString => [] | _ => [cur] end
  | String c rest =>
      if Ascii.eqb c (ascii_of_nat 10) then cur :: lines_from rest ""
      else lines_from rest (cur ++ String c "")
  end.

Fixpoint decode_lines (width_bits : Z) (lines : list string) : option (list Z) :=
  match lines with
  | [] => Some []
  | l :: lines' =>
      match hex_value l, decode_lines width_bits lines' with
      | Some u, Some vs => Some (decode_twos_complement width_bits u :: vs)
      | _, _ => None
      end
  end.

(** What a reader of a hex file of [width_bits]-bit words recovers: one
    signed value per line, [None] when a line is not made of lowercase
    hexadecimal digits. *)
Definition read_hex_file (width_bits : Z) (text : string) : option (list Z) :=
  decode_lines width_bits (lines_from text "").

(** What the chain keeps true of a requantisation record [r] stored in the
    entry [p], and of its state after every step. *)
Definition requant_ok (p : Quantize.quantized_param)
           (r : Quantize.requant_params) : Prop :=
  Quantize.shift r = 0
  /\ Quantize.scale_int r = Py.round (Quantize.real_scale r)
  /\ Quantize.scale_int r < 2 ^ 16
  /\ (Quantize.real_scale r * Quantize.scale p == 1)%Q.

Definition entry_ok (k : string) (p : Quantize.quantized_param) : Prop :=
  match Quantize.classify k with
  | Quantize.Weight => Quantize.requant p = None
  | Quantize.Bias => exists r, Quantize.requant p = Some r /\ requant_ok p r
  | Quantize.Other => False
  end.

Definition chain_inv (st : Quantize.chain_state) : Prop :=
  Quantize.prev_output_scale st = 1%Q
  /\ (forall k i w,
         PyDict.get k (Quantize.layer_scales st) = Some (i, w) ->
         i = 1%Q /\ ~ (w == 0)%Q)
  /\ (forall k,
         PyDict.mem k (Quantize.quantized_params st) = true ->
         Str.contains "weight" k = true ->
         PyDict.mem k (Quantize.layer_scales st) = true)
  /\ (forall k p,
         PyDict.get k (Quantize.quantized_params st) = Some p -> entry_ok k p).

(** The line the export prints for an entry. *)
Definition saved_line (base_path : string)
           (item : string * Quantize.quantized_param) : string :=
  "Saved " ++ fst item ++ " to "
  ++ (base_path ++ Str.replace "." "_" (fst item) ++ ".hex").

(** The requantisation parameters of the entries that have some, in order. *)
Definition requant_entries (items : PyDict.dict Quantize.quantized_param)
  : PyDict.dict Quantize.requant_params :=
  flat_map (fun item =>
              match Quantize.requant (snd item) with
              | Some r => [(fst item, r)]
              | None => []
              end) items.

End Spec.

(** ** Sample inputs *)

Module Samples.

Local Open Scope string_scope.

(** A 2-dimensional weight whose largest magnitude is 63.5, so that eight
    bits give the scale 0.5. *)
Definition weight : tensor Q :=
  Dim [Dim [Scalar (127 # 2); Scalar (- (1))]; Dim [Scalar (3 # 10); Scalar 0]]%Q.

Definition bias : tensor Q := Dim [Scalar (3 # 4); Scalar (- (7 # 1))]%Q.

Definition zeros : tensor Q := Dim [Scalar 0; Scalar (0 # 5)]%Q.

Definition ints : tensor Z :=
  Dim [Dim [Scalar (-1); Scalar 127]; Dim [Scalar (-128); Scalar 0]].

Definition model : list (string * tensor Q) :=
  [("layer1.weight", weight); ("layer1.bias", bias)].

(** A dictionary with a weight and its bias. *)
Definition params : PyDict.dict Quantize.quantized_param :=
  [("fc.weight", Quantize.mkParam ints 1%Q None);
   ("fc.bias",
    Quantize.mkParam (Dim [Scalar 70000; Scalar (-1)]) 1%Q
                     (Some (Quantize.mkRequant 2%Q 2 0)))].

End Samples.

(** * Properties *)

(** ** Rounding and truncation *)

Section Rounding.

Local Open Scope Q_scope.

Lemma round_comp (x y : Q) : x == y -> Py.round x = Py.round y.
Proof.
  intros E. unfold Py.round.
  rewrite (Qfloor_comp _ _ E).
  assert (C : (x - inject_Z (Qfloor y) ?= 1 # 2)
              = (y - inject_Z (Qfloor y) ?= 1 # 2)).
  { apply Qcompare_comp; [rewrite E|]; reflexivity. }
  rewrite C. reflexivity.
Qed.

Lemma round_inject_Z (z : Z) : Py.round (inject_Z z) = z.
Proof.
  unfold Py.round. rewrite Qfloor_Z.
  destruct (Qcompare_spec (inject_Z z - inject_Z z) (1 # 2)); try lra.
  reflexivity.
Qed.

(** Rounding stays on the same side of an integer bound. *)
Lemma round_le_Z (x : Q) (m : Z) : x <= inject_Z m -> (Py.round x <= m)%Z.
Proof.
  intros H.
  pose proof (Qfloor_resp_le _ _ H) as Hf. rewrite Qfloor_Z in Hf.
  pose proof (Qfloor_le x) as Hlo.
  unfold Py.round.
  destruct (Z.eq_dec (Qfloor x) m) as [E|N].
  - rewrite E in *.
    destruct (Qcompare_spec (x - inject_Z m) (1 # 2)); try lra; lia.
  - destruct (x - inject_Z (Qfloor x) ?= 1 # 2);
      try destruct (Z.even (Qfloor x)); lia.
Qed.

Lemma round_ge_Z (x : Q) (m : Z) : inject_Z m <= x -> (m <= Py.round x)%Z.
Proof.
  intros H.
  pose proof (Qfloor_resp_le _ _ H) as Hf. rewrite Qfloor_Z in Hf.
  unfold Py.round.
  destruct (x - inject_Z (Qfloor x) ?= 1 # 2);
    try destruct (Z.even (Qfloor x)); lia.
Qed.

Lemma to_int_inject_Z (z : Z) : Py.to_int (inject_Z z) = z.
Proof.
  unfold Py.to_int. rewrite Qfloor_Z, Qceiling_Z.
  destruct (Qle_bool 0 (inject_Z z)); reflexivity.
Qed.

Lemma pow2_nonneg (n : Z) : (0 <= n)%Z -> Py.pow2 n == inject_Z (2 ^ n).
Proof.
  intros H. unfold Py.pow2. rewrite (Zpower_Qpower 2 n H). reflexivity.
Qed.

End Rounding.

(** ** The scale/shift solver *)

Section ScaleShift.

Import Quantize.
Local Open Scope Z_scope.

Lemma lshift_one (n : Z) : 0 <= n -> Py.lshift 1 n = Ok (2 ^ n).
Proof.
  intros H. unfold Py.lshift.
  destruct (Z.ltb_spec n 0); [lia|].
  rewrite Z.shiftl_mul_pow2 by assumption. f_equal. lia.
Qed.

Lemma float_limit_double : Py.float_limit = 2 * 2 ^ 1023.
Proof. vm_compute. reflexivity. Qed.

(** A power of two is converted to a float up to [2^1023]. *)
Lemma float_of_pow2 (n : Z) :
  0 <= n ->
  Py.float_of_int (2 ^ n)
  = if n <? 1024 then Ok (inject_Z (2 ^ n)) else Raise Py.int_too_large.
Proof.
  intros Hn. unfold Py.float_of_int.
  rewrite Z.abs_eq by (apply Z.pow_nonneg; lia).
  destruct (Z.ltb_spec n 1024) as [H|H].
  - assert (H1 : 2 ^ n <= 2 ^ 1023) by (apply Z.pow_le_mono_r; lia).
    assert (H2 : 2 ^ 1023 < Py.float_limit - 2 ^ 970)
      by (vm_compute; reflexivity).
    destruct (Z.leb_spec (Py.float_limit - 2 ^ 970) (2 ^ n)) as [C|C];
      [|reflexivity].
    exfalso. apply (Z.lt_irrefl (2 ^ n)).
    eapply Z.le_lt_trans; [exact H1|]. eapply Z.lt_le_trans; eassumption.
  - assert (H1 : 2 ^ 1024 <= 2 ^ n) by (apply Z.pow_le_mono_r; lia).
    assert (H2 : Py.float_limit - 2 ^ 970 <= 2 ^ 1024)
      by (vm_compute; discriminate).
    destruct (Z.leb_spec (Py.float_limit - 2 ^ 970) (2 ^ n)) as [C|C];
      [reflexivity|].
    exfalso. apply (Z.lt_irrefl (2 ^ n)).
    eapply Z.lt_le_trans; [exact C|]. eapply Z.le_trans; eassumption.
Qed.

Lemma round_mono (x y : Q) : (x <= y)%Q -> Py.round x <= Py.round y.
Proof.
  intros H.
  pose proof (Qfloor_resp_le _ _ H) as Hf.
  destruct (Z.eq_dec (Qfloor x) (Qfloor y)) as [E|N].
  - unfold Py.round. rewrite E.
    destruct (Qcompare_spec (x - inject_Z (Qfloor y)) (1 # 2));
      destruct (Qcompare_spec (y - inject_Z (Qfloor y)) (1 # 2));
      try lra; try lia; destruct (Z.even (Qfloor y)); lia.
  - apply Z.le_trans with (Qfloor x + 1).
    + apply round_le_Z. apply Qlt_le_weak, Qlt_floor.
    + apply Z.le_trans with (Qfloor y); [lia|].
      apply round_ge_Z, Qfloor_le.
Qed.

Lemma pow2_inject_le (a b : Z) :
  0 <= a <= b -> (1 <= inject_Z (2 ^ a) <= inject_Z (2 ^ b))%Q.
Proof.
  intros H. change 1%Q with (inject_Z 1). rewrite <- !Zle_Qle. split.
  - pose proof (Z.pow_pos_nonneg 2 a). lia.
  - apply Z.pow_le_mono_r; lia.
Qed.

(** Scaling by a power of two does not lower the mantissa of a non-negative
    scale. *)
Lemma mantissa_ge_round (real_scale : Q) (sh : Z) :
  (0 <= real_scale)%Q -> 0 <= sh ->
  Py.round real_scale <= Spec.mantissa real_scale sh.
Proof.
  intros Hr Hs. unfold Spec.mantissa. apply round_mono.
  pose proof (pow2_inject_le sh sh ltac:(lia)) as [H _]. nra.
Qed.

Lemma finite_product_spec (real_scale : Q) (sh : Z) :
  (0 < real_scale)%Q -> 0 <= sh ->
  Spec.finite_product real_scale sh = true
  <-> sh < 1024
      /\ (real_scale * inject_Z (2 ^ sh) < inject_Z Py.float_limit)%Q.
Proof.
  intros Hr Hs. unfold Spec.finite_product.
  pose proof (pow2_inject_le sh sh ltac:(lia)) as [Hp _].
  rewrite andb_true_iff, Z.ltb_lt, negb_true_iff.
  rewrite Qabs_pos by nra.
  split; intros [H1 H2]; (split; [exact H1|]).
  - apply Qnot_le_lt. intros C. apply Qle_bool_iff in C. congruence.
  - apply not_true_is_false. intros C. apply Qle_bool_iff in C. lra.
Qed.

Lemma finite_product_down (real_scale : Q) (a b : Z) :
  (0 < real_scale)%Q -> 0 <= a <= b ->
  Spec.finite_product real_scale b = true ->
  Spec.finite_product real_scale a = true.
Proof.
  intros Hr Hab Hb.
  apply finite_product_spec in Hb; [|assumption|lia].
  apply finite_product_spec; [assumption|lia|].
  destruct Hb as [H1 H2]. split; [lia|].
  pose proof (pow2_inject_le a b Hab) as [Ha Hle].
  set (L := inject_Z Py.float_limit) in *.
  set (pa := inject_Z (2 ^ a)) in *. set (pb := inject_Z (2 ^ b)) in *.
  apply Qle_lt_trans with (real_scale * pb)%Q; [nra|exact H2].
Qed.

Lemma round_float_product (real_scale : Q) (sh : Z) :
  sh < 1024 ->
  Py.round_float (real_scale * inject_Z (2 ^ sh))
  = if Spec.finite_product real_scale sh
    then Ok (Spec.mantissa real_scale sh) else Raise Py.infinity_to_int.
Proof.
  intros H. unfold Py.round_float, Spec.finite_product, Spec.mantissa.
  destruct (Z.ltb_spec sh 1024); [|lia]. cbn [andb].
  destruct (Qle_bool _ _); reflexivity.
Qed.

(** The scales from 2 on overflow in the product, the others when the power
    of two does. *)
Lemma overflow_at_least_two (real_scale : Q) (sh : Z) :
  (0 < real_scale)%Q -> 0 <= sh < 1024 ->
  Spec.finite_product real_scale sh = false ->
  Qle_bool 2 real_scale = true.
Proof.
  intros Hr Hs Hf. apply Qle_bool_iff. apply Qnot_lt_le. intros C.
  assert (T : Spec.finite_product real_scale sh = true); [|congruence].
  apply finite_product_spec; [assumption|lia|]. split; [lia|].
  pose proof (pow2_inject_le sh 1023 ltac:(lia)) as [Ha Hle].
  rewrite float_limit_double, inject_Z_mult.
  set (pa := inject_Z (2 ^ sh)) in *. set (pb := inject_Z (2 ^ 1023)) in *.
  change (inject_Z 2) with 2%Q.
  apply Qlt_le_trans with (2 * pa)%Q; nra.
Qed.

Lemma overflow_below_two (real_scale : Q) :
  (0 < real_scale)%Q ->
  Spec.finite_product real_scale 1023 = true ->
  Qle_bool 2 real_scale = false.
Proof.
  intros Hr Hf. apply finite_product_spec in Hf; [|assumption|lia].
  destruct Hf as [_ Hf]. rewrite float_limit_double, inject_Z_mult in Hf.
  pose proof (pow2_inject_le 1023 1023 ltac:(lia)) as [Ha _].
  set (pb := inject_Z (2 ^ 1023)) in *. change (inject_Z 2) with 2%Q in Hf.
  apply not_true_is_false. intros C. apply Qle_bool_iff in C. nra.
Qed.

(** The search from [shift] on when the mantissa of the shift 0 is already
    too large: no later one fits, and the search ends at [max_shift] or at
    the first product that is not a finite float. *)
Lemma scale_shift_loop_nofit (real_scale : Q) (scale_bits : Z) :
  0 <= scale_bits -> (0 < real_scale)%Q ->
  2 ^ scale_bits <= Py.round real_scale ->
  forall (todo : nat) (shift : Z),
    1 <= shift ->
    Spec.finite_product real_scale (shift - 1) = true ->
    scale_shift_loop real_scale scale_bits todo shift
    = match todo with
      | O => Raise cannot_represent
      | S _ =>
          if Spec.finite_product real_scale (shift + Z.of_nat todo - 1)
          then Raise cannot_represent
          else Raise (if Qle_bool 2 real_scale
                      then Py.infinity_to_int else Py.int_too_large)
      end.
Proof.
  intros Hb Hr Hno. induction todo as [|todo IH]; intros shift Hs Hprev;
    [reflexivity|].
  cbn [scale_shift_loop]. rewrite lshift_one by lia. cbn [Py.bind].
  rewrite float_of_pow2 by lia.
  destruct (Z.ltb_spec shift 1024) as [Hlt|Hge]; cbn [Py.bind].
  - rewrite round_float_product by assumption.
    destruct (Spec.finite_product real_scale shift) eqn:Hf; cbn [Py.bind].
    + rewrite lshift_one by assumption. cbn [Py.bind].
      assert (E : (Spec.mantissa real_scale shift <? 2 ^ scale_bits) = false).
      { apply Z.ltb_ge.
        pose proof (mantissa_ge_round real_scale shift
                      (Qlt_le_weak _ _ Hr) ltac:(lia)). lia. }
      rewrite E. rewrite IH; [|lia|].
      * destruct todo as [|todo'].
        -- replace (shift + Z.of_nat 1 - 1) with shift by lia.
           rewrite Hf. reflexivity.
        -- replace (shift + 1 + Z.of_nat (S todo') - 1)
             with (shift + Z.of_nat (S (S todo')) - 1) by lia.
           reflexivity.
      * replace (shift + 1 - 1) with shift by lia. exact Hf.
    + assert (E : Spec.finite_product real_scale
                    (shift + Z.of_nat (S todo) - 1) = false).
      { apply not_true_is_false. intros C.
        apply (finite_product_down real_scale shift) in C;
          [congruence|assumption|lia]. }
      rewrite E, (overflow_at_least_two real_scale shift Hr ltac:(lia) Hf).
      reflexivity.
  - assert (E : Spec.finite_product real_scale
                  (shift + Z.of_nat (S todo) - 1) = false).
    { unfold Spec.finite_product.
      destruct (Z.ltb_spec (shift + Z.of_nat (S todo) - 1) 1024); [lia|].
      reflexivity. }
    rewrite E.
    assert (E1 : shift - 1 = 1023).
    { apply finite_product_spec in Hprev; [lia|assumption|lia]. }
    rewrite E1 in Hprev. rewrite (overflow_below_two real_scale Hr Hprev).
    reflexivity.
Qed.

(** [compute_scale_shift] in closed form. *)
Lemma scale_shift_closed (real_scale : Q) (scale_bits max_shift : Z) :
  compute_scale_shift real_scale scale_bits max_shift
  = if max_shift <=? 0 then Raise cannot_represent
    else if Qle_bool (inject_Z Py.float_limit) (Qabs real_scale)
    then Raise Py.infinity_to_int
    else if scale_bits <? 0 then Raise (Py.ValueError "negative shift count")
    else if Py.round real_scale <? 2 ^ scale_bits
    then Ok (Py.round real_scale, 0)
    else if Spec.finite_product real_scale (max_shift - 1)
    then Raise cannot_represent
    else Raise (if Qle_bool 2 real_scale
                then Py.infinity_to_int else Py.int_too_large).
Proof.
  unfold compute_scale_shift.
  destruct (Z.leb_spec max_shift 0) as [Hm|Hm].
  - replace (Z.to_nat max_shift) with 0%nat by lia. reflexivity.
  - destruct (Z.to_nat max_shift) as [|n] eqn:En; [lia|].
    cbn [scale_shift_loop]. change (Py.lshift 1 0) with (@Ok Z 1).
    cbn [Py.bind]. change (Py.float_of_int 1) with (Py.float_of_int (2 ^ 0)).
    rewrite (float_of_pow2 0 ltac:(lia)).
    change (0 <? 1024) with true. cbv iota. cbn [Py.bind].
    change (2 ^ 0) with 1. unfold Py.round_float.
    assert (E0 : (real_scale * inject_Z 1 == real_scale)%Q)
      by (change (inject_Z 1) with 1%Q; ring).
    assert (EL : Qle_bool (inject_Z Py.float_limit)
                          (Qabs (real_scale * inject_Z 1))
                 = Qle_bool (inject_Z Py.float_limit) (Qabs real_scale)).
    { apply Qleb_comp; [reflexivity|]. rewrite E0. reflexivity. }
    rewrite EL.
    destruct (Qle_bool (inject_Z Py.float_limit) (Qabs real_scale)) eqn:HL;
      [reflexivity|].
    cbn [Py.bind]. rewrite (round_comp _ _ E0). unfold Py.lshift at 1.
    destruct (Z.ltb_spec scale_bits 0) as [Hb|Hb]; [reflexivity|].
    cbn [Py.bind]. rewrite Z.shiftl_mul_pow2, Z.mul_1_l by exact Hb.
    destruct (Z.ltb_spec (Py.round real_scale) (2 ^ scale_bits)) as [Hf|Hf];
      [reflexivity|].
    assert (Hpos : (0 < real_scale)%Q).
    { apply Qnot_le_lt. intros C.
      assert (Py.round real_scale <= 0)
        by (apply round_le_Z; change (inject_Z 0) with 0%Q; lra).
      pose proof (Z.pow_pos_nonneg 2 scale_bits). lia. }
    assert (H0 : Spec.finite_product real_scale 0 = true).
    { apply finite_product_spec; [assumption|lia|]. split; [lia|].
      change (2 ^ 0) with 1. rewrite E0.
      apply Qnot_le_lt. intros C. rewrite <- (Qabs_pos real_scale) in C
        by (apply Qlt_le_weak; assumption).
      apply Qle_bool_iff in C. congruence. }
    rewrite (scale_shift_loop_nofit real_scale scale_bits Hb Hpos Hf n (0 + 1)
               ltac:(lia) H0).
    destruct n as [|n'].
    + replace (max_shift - 1) with 0 by lia. rewrite H0. reflexivity.
    + replace (0 + 1 + Z.of_nat (S n') - 1) with (max_shift - 1) by lia.
      reflexivity.
Qed.

End ScaleShift.

(** C1. For a positive finite float [real_scale] and a bit count
    [scale_bits], [compute_scale_shift] either returns [(scale_int, shift)]
    where [scale_int = round(real_scale * 2^shift)] is a non-negative
    integer below [2^scale_bits] and [shift] is the least value of
    [[0, max_shift)] whose mantissa is below that bound, or no shift of
    [[0, max_shift)] has its mantissa below the bound and it raises: the
    [ValueError] "Cannot represent scale factor in given bit-width" when
    every product [real_scale * 2^shift] of the search is a finite float,
    an [OverflowError] when one is not. *)
Theorem compute_scale_shift_minimal_or_raises
        (real_scale : Q) (scale_bits max_shift : Z) :
  (0 < real_scale)%Q ->
  (real_scale < inject_Z Py.float_limit)%Q ->
  0 <= scale_bits ->
  (exists scale_int shift,
      Quantize.compute_scale_shift real_scale scale_bits max_shift
      = Ok (scale_int, shift)
      /\ scale_int = Py.round (real_scale * inject_Z (2 ^ shift))
      /\ 0 <= scale_int < 2 ^ scale_bits
      /\ 0 <= shift < max_shift
      /\ forall sh', 0 <= sh' < shift -> ~ Spec.fits real_scale scale_bits sh')
  \/ ((forall sh', 0 <= sh' < max_shift ->
                   ~ Spec.fits real_scale scale_bits sh')
      /\ ((Quantize.compute_scale_shift real_scale scale_bits max_shift
           = Raise Quantize.cannot_represent
           /\ forall sh', 0 <= sh' < max_shift ->
                          Spec.finite_product real_scale sh' = true)
          \/ ((exists msg,
                  Quantize.compute_scale_shift real_scale scale_bits max_shift
                  = Raise (Py.OverflowError msg))
              /\ exists sh', 0 <= sh' < max_shift
                             /\ Spec.finite_product real_scale sh' = false))).
Proof.
  intros Hpos Hfin Hbits. rewrite scale_shift_closed.
  destruct (Z.leb_spec max_shift 0) as [Hm|Hm].
  { right. split; [intros sh' H; lia|]. left.
    split; [reflexivity|]. intros sh' H. lia. }
  assert (HL : Qle_bool (inject_Z Py.float_limit) (Qabs real_scale) = false).
  { apply not_true_is_false. intros C. apply Qle_bool_iff in C.
    rewrite Qabs_pos in C by (apply Qlt_le_weak; assumption). lra. }
  rewrite HL. destruct (Z.ltb_spec scale_bits 0) as [Hb|_]; [lia|].
  destruct (Z.ltb_spec (Py.round real_scale) (2 ^ scale_bits)) as [Hf|Hf].
  - left. exists (Py.round real_scale), 0.
    split; [reflexivity|]. split.
    { apply round_comp. change (2 ^ 0) with 1. change (inject_Z 1) with 1%Q.
      ring. }
    split.
    { split; [|exact Hf]. apply round_ge_Z. change (inject_Z 0) with 0%Q.
      lra. }
    split; [lia|]. intros sh' H. lia.
  - right. split.
    { intros sh' H. unfold Spec.fits.
      pose proof (mantissa_ge_round real_scale sh'
                    (Qlt_le_weak _ _ Hpos) ltac:(lia)). lia. }
    destruct (Spec.finite_product real_scale (max_shift - 1)) eqn:Hlast.
    + left. split; [reflexivity|]. intros sh' H.
      apply (finite_product_down real_scale sh' (max_shift - 1));
        [assumption|lia|exact Hlast].
    + right. split.
      * destruct (Qle_bool 2 real_scale); eexists; reflexivity.
      * exists (max_shift - 1). split; [lia|exact Hlast].
Qed.

(** ** Tensors: induction, elementwise maps and reductions *)

Section TensorFacts.

Context {A : Type}.

(** Induction on a tensor, with the hypothesis for every row. *)
Lemma tensor_nested_ind (P : tensor A -> Prop) :
  (forall a, P (Scalar a)) ->
  (forall rows, Forall P rows -> P (Dim rows)) ->
  forall t, P t.
Proof.
  intros HS HD. fix IH 1. intros [a|rows].
  - apply HS.
  - apply HD. induction rows as [|r rows IHrows]; constructor.
    + apply IH.
    + exact IHrows.
Qed.

Lemma tmap_ext_in {B : Type} (f g : A -> B) (t : tensor A) :
  (forall x, In x (flatten t) -> f x = g x) -> tmap f t = tmap g t.
Proof.
  induction t as [a|rows IH] using tensor_nested_ind; cbn; intros H.
  - f_equal. apply H. left. reflexivity.
  - f_equal. induction IH as [|r rows Hr _ IHrows]; cbn in *.
    + reflexivity.
    + f_equal.
      * apply Hr. intros x Hx. apply H, in_or_app. left. exact Hx.
      * apply IHrows. intros x Hx. apply H, in_or_app. right. exact Hx.
Qed.

End TensorFacts.

Section Reductions.

Local Open Scope Q_scope.

Lemma py_min_le (a b : Q) : Py.min a b <= a /\ Py.min a b <= b.
Proof.
  unfold Py.min. destruct (Qcompare_spec b a); split; lra.
Qed.

Lemma py_max_ge (a b : Q) : a <= Py.max a b /\ b <= Py.max a b.
Proof.
  unfold Py.max. destruct (Qcompare_spec a b); split; lra.
Qed.

Lemma fold_min_le (xs : list Q) (x0 : Q) :
  fold_left Py.min xs x0 <= x0
  /\ forall x, In x xs -> fold_left Py.min xs x0 <= x.
Proof.
  revert x0. induction xs as [|y xs IH]; intros x0; cbn.
  - split; [lra|]. intros x [].
  - destruct (IH (Py.min x0 y)) as [H0 Hin].
    destruct (py_min_le x0 y) as [Ha Hb].
    split; [lra|]. intros x [<-|Hx]; [lra|]. apply Hin, Hx.
Qed.

Lemma fold_max_ge (xs : list Q) (x0 : Q) :
  x0 <= fold_left Py.max xs x0
  /\ forall x, In x xs -> x <= fold_left Py.max xs x0.
Proof.
  revert x0. induction xs as [|y xs IH]; intros x0; cbn.
  - split; [lra|]. intros x [].
  - destruct (IH (Py.max x0 y)) as [H0 Hin].
    destruct (py_max_ge x0 y) as [Ha Hb].
    split; [lra|]. intros x [<-|Hx]; [lra|]. apply Hin, Hx.
Qed.

(** Every element lies between the two reductions. *)
Lemma min_max_bound (t : tensor Q) (lo hi x : Q) :
  Tensor.min t = Ok lo -> Tensor.max t = Ok hi ->
  In x (flatten t) -> lo <= x <= hi.
Proof.
  unfold Tensor.min, Tensor.max.
  destruct (flatten t) as [|x0 xs]; [discriminate|].
  intros [= <-] [= <-] Hx.
  destruct (fold_min_le xs x0) as [L0 Lin].
  destruct (fold_max_ge xs x0) as [U0 Uin].
  destruct Hx as [<-|Hx]; [split; assumption|].
  split; [apply Lin|apply Uin]; exact Hx.
Qed.

Lemma reductions_return (t : tensor Q) :
  flatten t <> [] ->
  exists lo hi, Tensor.min t = Ok lo /\ Tensor.max t = Ok hi.
Proof.
  unfold Tensor.min, Tensor.max. destruct (flatten t); [congruence|].
  intros _. eauto.
Qed.

(** [max_abs] bounds the magnitude of every element. *)
Lemma max_abs_bound (lo hi x : Q) :
  lo <= x <= hi -> Qabs x <= Py.max (Qabs lo) (Qabs hi).
Proof.
  intros [Hl Hh].
  destruct (py_max_ge (Qabs lo) (Qabs hi)) as [Ha Hb].
  pose proof (Qle_Qabs hi). pose proof (Qle_Qabs (- lo)).
  rewrite Qabs_opp in *.
  apply Qabs_case; intros; lra.
Qed.

End Reductions.

(** ** The tensor quantisers *)

Section Quantizers.

Import Quantize.
Local Open Scope Q_scope.

Lemma pow2_pos (n : Z) : 0 < Py.pow2 n.
Proof. unfold Py.pow2. apply Qpower_0_lt. reflexivity. Qed.

Lemma qmax_int (b : Z) :
  (1 <= b)%Z -> Py.pow2 (b - 1) - 1 == inject_Z (2 ^ (b - 1) - 1).
Proof.
  intros H. rewrite pow2_nonneg by lia.
  unfold Z.sub. rewrite inject_Z_plus, inject_Z_opp. reflexivity.
Qed.

End Quantizers.

Section QuantizerClaims.

Import Quantize.
Local Open Scope Q_scope.

Lemma py_min_cases (a b : Q) : Py.min a b = a \/ Py.min a b = b.
Proof. unfold Py.min. destruct (b ?= a); auto. Qed.

Lemma py_max_cases (a b : Q) : Py.max a b = a \/ Py.max a b = b.
Proof. unfold Py.max. destruct (a ?= b); auto. Qed.

(** A reduction returns one of the elements. *)
Lemma fold_pick_in (f : Q -> Q -> Q) (xs : list Q) (x0 : Q) :
  (forall a b, f a b = a \/ f a b = b) ->
  In (fold_left f xs x0) (x0 :: xs).
Proof.
  intros Hf. revert x0. induction xs as [|y xs IH]; intros x0; cbn.
  - auto.
  - destruct (IH (f x0 y)) as [E|Hin].
    + destruct (Hf x0 y) as [E'|E']; rewrite <- E, E'; auto.
    + auto.
Qed.

Lemma zero_quantizes_to_zero (b : Z) :
  Tensor.to_int32
    (Tensor.clamp (inject_Z 0) (- Py.pow2 (b - 1)) (Py.pow2 (b - 1) - 1))
  = 0%Z.
Proof.
  pose proof (pow2_pos (b - 1)) as Hp.
  unfold Tensor.to_int32.
  enough (E : Py.to_int
                (Tensor.clamp (inject_Z 0) (- Py.pow2 (b - 1))
                              (Py.pow2 (b - 1) - 1)) = 0%Z)
    by (rewrite E; reflexivity).
  unfold Tensor.clamp.
  assert (C1 : Qle_bool (- Py.pow2 (b - 1)) (inject_Z 0) = true).
  { apply Qle_bool_iff. change (inject_Z 0) with 0. lra. }
  rewrite C1.
  destruct (Qle_bool (inject_Z 0) (Py.pow2 (b - 1) - 1)) eqn:C2.
  - apply to_int_inject_Z.
  - assert (Hneg : Py.pow2 (b - 1) - 1 < 0).
    { apply Qnot_le_lt. intros C. apply Qle_bool_iff in C.
      change 0 with (inject_Z 0) in C. congruence. }
    unfold Py.to_int.
    assert (C3 : Qle_bool 0 (Py.pow2 (b - 1) - 1) = false).
    { apply not_true_is_false. intros C. apply Qle_bool_iff in C. lra. }
    rewrite C3.
    pose proof (Qle_ceiling (Py.pow2 (b - 1) - 1)) as Hc1.
    pose proof (Qceiling_lt (Py.pow2 (b - 1) - 1)) as Hc2.
    set (c := Qceiling (Py.pow2 (b - 1) - 1)) in *.
    assert (L : inject_Z (-1) < inject_Z c).
    { change (inject_Z (-1)) with (-(1)). lra. }
    assert (U : inject_Z (c - 1) < inject_Z 0).
    { change (inject_Z 0) with 0. lra. }
    rewrite <- Zlt_Qlt in L, U. lia.
Qed.

(** C9. A tensor with an element, all of whose elements are zero,
    quantises for every bit count to the tensor of the same shape holding
    the integer 0 everywhere, with the scale 1.0. *)
Theorem quantize_tensor_all_zero (t : tensor Q) (num_bits : Z) :
  flatten t <> [] ->
  Forall (fun x => x == 0) (flatten t) ->
  quantize_tensor t num_bits = Ok (tmap (fun _ => 0%Z) t, 1).
Proof.
  intros Hne Hz. rewrite Forall_forall in Hz.
  unfold quantize_tensor, Tensor.min, Tensor.max.
  destruct (flatten t) as [|x0 xs] eqn:Ef; [congruence|].
  cbn [Py.bind].
  pose proof (Hz _ (fold_pick_in Py.min xs x0 py_min_cases)) as Elo.
  pose proof (Hz _ (fold_pick_in Py.max xs x0 py_max_cases)) as Ehi.
  set (lo := fold_left Py.min xs x0) in *.
  set (hi := fold_left Py.max xs x0) in *.
  assert (Ez : Qeq_bool (Py.max (Qabs lo) (Qabs hi)) 0 = true).
  { apply Qeq_eq_bool.
    destruct (py_max_cases (Qabs lo) (Qabs hi)) as [-> | ->];
      [rewrite Elo|rewrite Ehi]; reflexivity. }
  rewrite Ez. cbn [negb Py.bind]. do 2 f_equal.
  apply tmap_ext_in. intros x Hx. rewrite Ef in Hx.
  assert (E : x / 1 == inject_Z 0) by (rewrite (Hz x Hx); reflexivity).
  rewrite (round_comp _ _ E), round_inject_Z.
  apply zero_quantizes_to_zero.
Qed.

End QuantizerClaims.

(** ** Dictionaries *)

Section DictFacts.

Context {V : Type}.

Lemma get_set_same (k : string) (v : V) (d : PyDict.dict V) :
  PyDict.get k (PyDict.set k v d) = Some v.
Proof.
  induction d as [|[k' v'] d IH]; cbn.
  - rewrite String.eqb_refl. reflexivity.
  - destruct (String.eqb k k') eqn:E; cbn.
    + rewrite String.eqb_refl. reflexivity.
    + rewrite E. exact IH.
Qed.

Lemma get_set_other (k k0 : string) (v : V) (d : PyDict.dict V) :
  k0 <> k -> PyDict.get k0 (PyDict.set k v d) = PyDict.get k0 d.
Proof.
  intros N. induction d as [|[k' v'] d IH]; cbn.
  - destruct (String.eqb_spec k0 k); [contradiction|reflexivity].
  - destruct (String.eqb_spec k k') as [<-|N']; cbn.
    + destruct (String.eqb_spec k0 k); [contradiction|reflexivity].
    + destruct (String.eqb k0 k'); [reflexivity|exact IH].
Qed.

End DictFacts.

(** ** The scale chain *)

Section Chain.

Import Quantize.
Local Open Scope string_scope.

Variables num_bits bias_bits : Z.

Lemma chain_run_app (pre post : list (string * tensor Q)) (st : chain_state) :
  chain_run num_bits bias_bits st (pre ++ post)
  = Py.bind (chain_run num_bits bias_bits st pre)
            (fun st' => chain_run num_bits bias_bits st' post).
Proof.
  revert st. induction pre as [|entry pre IH]; intros st; cbn.
  - reflexivity.
  - destruct (chain_step num_bits bias_bits st entry); cbn; auto.
Qed.

Lemma classify_weight (name : string) :
  Str.contains "weight" name = true -> classify name = Weight.
Proof. unfold classify. intros ->. reflexivity. Qed.

Lemma classify_bias (name : string) :
  Str.contains "weight" name = false -> Str.contains "bias" name = true ->
  classify name = Bias.
Proof. unfold classify. intros -> ->. reflexivity. Qed.

(** The exceptions of [quantize_tensor] are those of the reductions and of
    the division. *)
Lemma quantize_tensor_raises (t : tensor Q) (b : Z) (e : exn) :
  quantize_tensor t b = Raise e ->
  e = Tensor.empty_reduction "min" \/ e = Tensor.empty_reduction "max"
  \/ e = Py.ZeroDivisionError "float division by zero".
Proof.
  unfold quantize_tensor, Tensor.min, Tensor.max.
  destruct (flatten t) as [|x xs]; cbn [Py.bind].
  - intros [= <-]. auto.
  - destruct (negb _); cbn [Py.bind]; [|discriminate].
    unfold Py.div. destruct (Qeq_bool _ _); cbn [Py.bind]; [|discriminate].
    intros [= <-]. auto.
Qed.

(** The step on a bias whose weight has not been recorded. *)
Lemma chain_step_missing_weight (st : chain_state) (name : string)
      (param : tensor Q) :
  classify name = Bias ->
  PyDict.mem (Str.replace "bias" "weight" name) (quantized_params st) = false ->
  chain_step num_bits bias_bits st (name, param)
  = Raise (weight_not_quantized name).
Proof.
  intros Hk Hm. unfold chain_step. rewrite Hk, Hm. reflexivity.
Qed.

(** The step on a bias that succeeds. *)
Lemma chain_step_bias_inv (st st' : chain_state) (name : string)
      (param : tensor Q) :
  classify name = Bias ->
  chain_step num_bits bias_bits st (name, param) = Ok st' ->
  exists in_scale w_scale si sh,
    PyDict.mem (Str.replace "bias" "weight" name) (quantized_params st) = true
    /\ PyDict.get (Str.replace "bias" "weight" name) (layer_scales st)
       = Some (in_scale, w_scale)
    /\ ~ (in_scale * w_scale == 0)%Q
    /\ compute_scale_shift (1 / (in_scale * w_scale)) 16 31 = Ok (si, sh)
    /\ st' = mkChain
               (PyDict.set name
                  (mkParam
                     (fst (quantize_bias_tensor param in_scale w_scale bias_bits))
                     (snd (quantize_bias_tensor param in_scale w_scale bias_bits))
                     (Some (mkRequant (1 / (in_scale * w_scale)) si sh)))
                  (quantized_params st))
               (layer_scales st) 1%Q.
Proof.
  intros Hk. unfold chain_step. rewrite Hk.
  destruct (PyDict.mem _ (quantized_params st)) eqn:Hm; cbn [negb];
    [|discriminate].
  unfold PyDict.getitem.
  destruct (PyDict.get _ (layer_scales st)) as [[in_scale w_scale]|] eqn:Hg;
    cbn [Py.bind]; [|discriminate].
  destruct (quantize_bias_tensor param in_scale w_scale bias_bits)
    as [q_b b_scale] eqn:Hq.
  unfold Py.div.
  destruct (Qeq_bool (in_scale * w_scale) 0) eqn:Hz; cbn [Py.bind];
    [discriminate|].
  destruct (compute_scale_shift (1 / (in_scale * w_scale)) 16 31)
    as [[si sh]|e] eqn:Hc; cbn [Py.bind]; [|discriminate].
  intros [= <-]. exists in_scale, w_scale, si, sh.
  split; [auto|]. split; [auto|].
  split; [apply Qeq_bool_neq, Hz|]. split; [auto|].
  rewrite ?Hq. reflexivity.
Qed.

End Chain.

Section ChainClaims.

Import Quantize.
Local Open Scope string_scope.

(** C6, as the code has it. When the traversal reaches a parameter whose
    name contains "bias" and does not contain "weight", and the name with
    "bias" replaced by "weight" has not been recorded by then, the whole
    call raises the [RuntimeError] "Weight for <name> not quantized yet":
    nothing is returned, for that bias or any other parameter. *)
Theorem bias_before_weight_raises
        (num_bits bias_bits : Z) (pre post : list (string * tensor Q))
        (name : string) (param : tensor Q) (st : chain_state) :
  chain_run num_bits bias_bits chain_init pre = Ok st ->
  Str.contains "weight" name = false ->
  Str.contains "bias" name = true ->
  PyDict.mem (Str.replace "bias" "weight" name) (quantized_params st) = false ->
  quantize_model_weights (pre ++ (name, param) :: post) num_bits bias_bits
  = Raise (weight_not_quantized name).
Proof.
  intros Hpre Hw Hb Hm. unfold quantize_model_weights.
  rewrite chain_run_app, Hpre. cbn [Py.bind chain_run].
  rewrite (chain_step_missing_weight num_bits bias_bits st name param
             (classify_bias name Hw Hb) Hm).
  reflexivity.
Qed.

(** C7. A bias step that succeeds has read the pair
    [(input_scale, weight_scale)] recorded for its weight, has solved
    [1.0 / (input_scale * weight_scale)] with [scale_bits = 16] (and
    [max_shift = 31]), has attached that real scale with the solver's
    result to the record of the bias, and leaves [prev_output_scale] at
    1.0.  For a weight recorded with [weight_scale = 0.5] and
    [input_scale = 1.0] the attached parameters are [(2.0, 2, 0)], also when
    the weight has been quantised by the chain itself, and the solver
    returns [(2, 0)] on 2.0. *)
Theorem bias_requant_params :
  (forall (num_bits bias_bits : Z) (st st' : chain_state) (name : string)
          (param : tensor Q),
      classify name = Bias ->
      chain_step num_bits bias_bits st (name, param) = Ok st' ->
      exists in_scale w_scale si sh,
        PyDict.get (Str.replace "bias" "weight" name) (layer_scales st)
        = Some (in_scale, w_scale)
        /\ compute_scale_shift (1 / (in_scale * w_scale)) 16 31 = Ok (si, sh)
        /\ option_map requant (PyDict.get name (quantized_params st'))
           = Some (Some (mkRequant (1 / (in_scale * w_scale)) si sh))
        /\ prev_output_scale st' = 1%Q)
  /\ (forall (q_w : tensor Z) (b : tensor Q),
         exists st',
           chain_step 8 32
             (mkChain [("layer1.weight", mkParam q_w (1 # 2) None)]
                      [("layer1.weight", (1%Q, 1 # 2))] 1%Q)
             ("layer1.bias", b) = Ok st'
           /\ option_map requant
                (PyDict.get "layer1.bias" (quantized_params st'))
              = Some (Some (mkRequant 2 2 0)))
  /\ (exists out w b r,
         quantize_model_weights Samples.model 8 32 = Ok out
         /\ PyDict.get "layer1.weight" out = Some w
         /\ (scale w == 1 # 2)%Q
         /\ PyDict.get "layer1.bias" out = Some b
         /\ requant b = Some r
         /\ (real_scale r == 2)%Q /\ scale_int r = 2 /\ shift r = 0)
  /\ compute_scale_shift 2 16 31 = Ok (2, 0).
Proof.
  split; [|split; [|split]].
  - intros num_bits bias_bits st st' name param Hk Hs.
    destruct (chain_step_bias_inv _ _ _ _ _ _ Hk Hs)
      as (in_scale & w_scale & si & sh & _ & Hg & _ & Hc & ->).
    exists in_scale, w_scale, si, sh.
    cbn [quantized_params prev_output_scale].
    rewrite get_set_same. auto.
  - intros q_w b. eexists. split; [reflexivity|]. reflexivity.
  - do 4 eexists. split; [vm_compute; reflexivity|].
    split; [reflexivity|]. split; [reflexivity|].
    split; [reflexivity|]. split; [reflexivity|].
    split; [reflexivity|]. split; reflexivity.
  - reflexivity.
Qed.

(** C10. A parameter whose name contains both "weight" and "bias" takes
    the weight branch: the step is the quantisation of the tensor with the
    weight bit count, it records the pair [(prev_output_scale, w_scale)]
    and a record without requantisation parameters under that name, leaves
    [prev_output_scale] as it was, and never raises the error of a bias
    without its weight. *)
Theorem weight_and_bias_name_is_weight
        (num_bits bias_bits : Z) (st : chain_state) (name : string)
        (param : tensor Q) :
  Str.contains "weight" name = true ->
  Str.contains "bias" name = true ->
  classify name = Weight
  /\ chain_step num_bits bias_bits st (name, param)
     <> Raise (weight_not_quantized name)
  /\ (forall e, quantize_tensor param num_bits = Raise e ->
                chain_step num_bits bias_bits st (name, param) = Raise e)
  /\ (forall q_w w_scale,
         quantize_tensor param num_bits = Ok (q_w, w_scale) ->
         exists st',
           chain_step num_bits bias_bits st (name, param) = Ok st'
           /\ PyDict.get name (quantized_params st')
              = Some (mkParam q_w w_scale None)
           /\ PyDict.get name (layer_scales st')
              = Some (prev_output_scale st, w_scale)
           /\ prev_output_scale st' = prev_output_scale st).
Proof.
  intros Hw _. pose proof (classify_weight name Hw) as Hk.
  split; [exact Hk|].
  unfold chain_step. rewrite Hk.
  destruct (quantize_tensor param num_bits) as [[q_w w_scale]|e] eqn:Hq;
    cbn [Py.bind].
  - split; [discriminate|]. split; [discriminate|].
    intros q_w' w_scale' [= <- <-]. eexists. split; [reflexivity|].
    cbn [quantized_params layer_scales prev_output_scale].
    rewrite !get_set_same. auto.
  - split.
    + intros [= ->].
      destruct (quantize_tensor_raises _ _ _ Hq) as [C|[C|C]]; discriminate C.
    + split; [intros e' [= <-]; reflexivity|discriminate].
Qed.

End ChainClaims.

(** ** Hexadecimal formatting *)

Section HexFacts.

Import ConvertToHex.
Local Open Scope string_scope.
Local Open Scope Z_scope.

Lemma str_app_assoc (a b c : string) : (a ++ b) ++ c = a ++ (b ++ c).
Proof. induction a as [|x a IH]; cbn; [reflexivity|]. f_equal. exact IH. Qed.

Lemma str_length_app (a b : string) :
  String.length (a ++ b) = (String.length a + String.length b)%nat.
Proof. induction a as [|x a IH]; cbn; [reflexivity|]. f_equal. exact IH. Qed.

Lemma hex_digit_value_digit (d : Z) :
  0 <= d < 16 -> Spec.hex_digit_value (hex_digit d) = Some d.
Proof.
  intros H.
  assert (C : d = 0 \/ d = 1 \/ d = 2 \/ d = 3 \/ d = 4 \/ d = 5 \/ d = 6
              \/ d = 7 \/ d = 8 \/ d = 9 \/ d = 10 \/ d = 11 \/ d = 12
              \/ d = 13 \/ d = 14 \/ d = 15) by lia.
  repeat (destruct C as [->|C]; [reflexivity|]). subst d. reflexivity.
Qed.

Lemma hex_value_acc_app (s1 s2 : string) (a : Z) :
  Spec.hex_value_acc (s1 ++ s2) a
  = match Spec.hex_value_acc s1 a with
    | Some a' => Spec.hex_value_acc s2 a'
    | None => None
    end.
Proof.
  revert a. induction s1 as [|c s1 IH]; intros a; cbn.
  - reflexivity.
  - destruct (Spec.hex_digit_value c); [apply IH|reflexivity].
Qed.

Lemma lowercase_hex_app (s1 s2 : string) :
  Spec.lowercase_hex s1 -> Spec.lowercase_hex s2 ->
  Spec.lowercase_hex (s1 ++ s2).
Proof.
  intros H1 H2. induction s1 as [|c s1 IH]; cbn in *.
  - exact H2.
  - destruct H1 as [Hc H1]. split; [exact Hc|apply IH, H1].
Qed.

Lemma zeros_facts (n : nat) :
  String.length (zeros n) = n
  /\ Spec.lowercase_hex (zeros n)
  /\ Spec.hex_value_acc (zeros n) 0 = Some 0.
Proof.
  induction n as [|n (L & H & V)]; cbn.
  - auto.
  - change (Spec.hex_digit_value "0") with (Some 0).
    repeat split; [f_equal; exact L|discriminate|exact H|exact V].
Qed.

(** The digits of [n]: they are put in front of the accumulator, they read
    back as [n], and there are no more of them than the magnitude of [n]
    needs. *)
Lemma hex_digits_acc_spec (fuel : nat) (n : Z) (acc : string) :
  0 <= n < 16 ^ (Z.of_nat fuel + 1) ->
  exists ds,
    hex_digits_acc fuel n acc = ds ++ acc
    /\ Spec.lowercase_hex ds
    /\ (forall a, Spec.hex_value_acc ds a
                  = Some (a * 16 ^ Z.of_nat (String.length ds) + n))
    /\ (1 <= String.length ds)%nat
    /\ (forall k, (1 <= k)%nat -> n < 16 ^ Z.of_nat k ->
                  (String.length ds <= k)%nat).
Proof.
  assert (Hone : forall n acc, 0 <= n < 16 ->
            exists ds,
              String (hex_digit (n mod 16)) acc = ds ++ acc
              /\ Spec.lowercase_hex ds
              /\ (forall a, Spec.hex_value_acc ds a
                            = Some (a * 16 ^ Z.of_nat (String.length ds) + n))
              /\ (1 <= String.length ds)%nat
              /\ (forall k, (1 <= k)%nat -> n < 16 ^ Z.of_nat k ->
                            (String.length ds <= k)%nat)).
  { clear. intros n acc Hn. exists (String (hex_digit n) "").
    rewrite Z.mod_small by lia.
    cbn [String.length Spec.hex_value_acc Spec.lowercase_hex].
    rewrite (hex_digit_value_digit n Hn).
    split; [reflexivity|]. split; [split; [discriminate|exact I]|].
    split; [intros a; f_equal; change (16 ^ Z.of_nat 1) with 16; lia|].
    split; [lia|]. intros k Hk _. exact Hk. }
  revert n acc. induction fuel as [|fuel IH]; intros n acc Hn.
  - cbn [hex_digits_acc]. apply Hone. cbn in Hn. lia.
  - cbn [hex_digits_acc].
    destruct (Z.eqb_spec (n / 16) 0) as [E|N].
    + apply Hone. apply Z.div_small_iff in E; lia.
    + assert (Hq : 0 <= n / 16 < 16 ^ (Z.of_nat fuel + 1)).
      { split; [apply Z.div_pos; lia|].
        apply Z.div_lt_upper_bound; [lia|].
        replace (Z.of_nat (S fuel) + 1) with (Z.succ (Z.of_nat fuel + 1)) in Hn
          by lia.
        rewrite Z.pow_succ_r in Hn by lia. lia. }
      destruct (IH (n / 16) (String (hex_digit (n mod 16)) acc) Hq)
        as (ds & E & Hl & Hv & Hlen & Hk).
      pose proof (Z.mod_pos_bound n 16 ltac:(lia)) as Hm.
      exists (ds ++ String (hex_digit (n mod 16)) "").
      rewrite E, str_app_assoc. cbn [append].
      split; [reflexivity|]. split; [|split; [|split]].
      * apply lowercase_hex_app; [exact Hl|]. cbn.
        rewrite (hex_digit_value_digit _ Hm). split; [discriminate|exact I].
      * intros a. rewrite hex_value_acc_app, Hv. cbn [Spec.hex_value_acc].
        rewrite (hex_digit_value_digit _ Hm). f_equal.
        rewrite str_length_app. cbn [String.length].
        rewrite Nat2Z.inj_add, Z.pow_add_r by lia.
        change (16 ^ Z.of_nat 1) with 16.
        pose proof (Z.div_mod n 16 ltac:(lia)). lia.
      * rewrite str_length_app. cbn. lia.
      * intros k Hk1 Hnk. rewrite str_length_app. cbn [String.length].
        assert (Hn16 : 16 <= n).
        { destruct (Z.lt_ge_cases n 16) as [C|C]; [|exact C].
          exfalso. apply N. apply Z.div_small. lia. }
        destruct k as [|[|k]]; [lia| |].
        -- change (16 ^ Z.of_nat 1) with 16 in Hnk. lia.
        -- assert (String.length ds <= S k)%nat; [|lia].
           apply Hk; [lia|]. apply Z.div_lt_upper_bound; [lia|].
           replace (Z.of_nat (S (S k))) with (Z.succ (Z.of_nat (S k))) in Hnk
             by lia.
           rewrite Z.pow_succ_r in Hnk by lia. lia.
Qed.

Lemma hex_of_nat_spec (n : Z) :
  0 <= n ->
  Spec.lowercase_hex (hex_of_nat n)
  /\ Spec.hex_value (hex_of_nat n) = Some n
  /\ (1 <= String.length (hex_of_nat n))%nat
  /\ (forall k, (1 <= k)%nat -> n < 16 ^ Z.of_nat k ->
                (String.length (hex_of_nat n) <= k)%nat).
Proof.
  intros Hn. unfold hex_of_nat, Spec.hex_value.
  assert (Hf : 0 <= n < 16 ^ (Z.of_nat (Z.to_nat (Z.log2 n)) + 1)).
  { split; [exact Hn|].
    pose proof (Z.log2_nonneg n) as Hl. rewrite Z2Nat.id by exact Hl.
    destruct (Z.eq_dec n 0) as [->|N]; [reflexivity|].
    pose proof (Z.log2_spec n ltac:(lia)) as [_ Hu].
    assert (2 ^ Z.succ (Z.log2 n) <= 16 ^ (Z.log2 n + 1)).
    { unfold Z.succ. apply Z.pow_le_mono_l. lia. }
    lia. }
  destruct (hex_digits_acc_spec _ n "" Hf) as (ds & E & Hl & Hv & Hlen & Hk).
  assert (Er : ds ++ "" = ds).
  { clear. induction ds as [|c ds IH]; cbn; [reflexivity|]. f_equal. exact IH. }
  rewrite E, Er. repeat split; try assumption.
  rewrite Hv; f_equal; lia.
Qed.

(** A value that fits in [k >= 1] digits is formatted as exactly [k]
    lowercase digits that read back as the value. *)
Lemma format_hex_fits (v k : Z) :
  1 <= k -> 0 <= v < 16 ^ k ->
  exists s,
    format_hex v k = Ok s
    /\ Z.of_nat (String.length s) = k
    /\ Spec.lowercase_hex s
    /\ Spec.hex_value s = Some v.
Proof.
  intros Hk Hv. unfold format_hex.
  destruct (Z.ltb_spec k 0); [lia|].
  destruct (Z.ltb_spec v 0); [lia|].
  rewrite Z.abs_eq by lia. cbn [append String.length].
  destruct (hex_of_nat_spec v ltac:(lia)) as (Hl & Hval & Hlen & Hfit).
  specialize (Hfit (Z.to_nat k) ltac:(lia)).
  rewrite Z2Nat.id in Hfit by lia. specialize (Hfit ltac:(lia)).
  set (ds := hex_of_nat v) in *.
  destruct (zeros_facts (Z.to_nat k - 0 - String.length ds)) as (Zl & Zh & Zv).
  eexists. split; [reflexivity|]. split; [|split].
  - rewrite str_length_app, Zl. lia.
  - apply lowercase_hex_app; assumption.
  - unfold Spec.hex_value in *. rewrite hex_value_acc_app, Zv. exact Hval.
Qed.

End HexFacts.

Section HexExport.

Import ConvertToHex.
Local Open Scope string_scope.
Local Open Scope Z_scope.

(** A width whose signed range holds an integer is positive. *)
Lemma in_range_width (w v : Z) : Spec.in_range w v -> 1 <= w.
Proof.
  unfold Spec.in_range. intros H.
  destruct (Z.lt_ge_cases w 1) as [C|C]; [|exact C].
  rewrite Z.pow_neg_r in H by lia. lia.
Qed.

Lemma twos_complement_range (w v : Z) :
  Spec.in_range w v -> 0 <= twos_complement v (2 ^ w) < 2 ^ w.
Proof.
  intros H. pose proof (in_range_width w v H) as Hw.
  unfold Spec.in_range in H. unfold twos_complement.
  replace w with (Z.succ (w - 1)) at 1 2 3 by lia.
  rewrite Z.pow_succ_r by lia.
  destruct (Z.ltb_spec v 0); lia.
Qed.

Lemma sixteen_pow_quarter (w : Z) :
  0 <= w -> w mod 4 = 0 -> 16 ^ (w / 4) = 2 ^ w.
Proof.
  intros Hw Hm. change 16 with (2 ^ 4).
  rewrite <- Z.pow_mul_r by (try apply Z.div_pos; lia).
  f_equal. pose proof (Z.div_mod w 4 ltac:(lia)). lia.
Qed.

Lemma write_values_lines (flat : list Z) (max_val hex_digits : Z) :
  Forall (fun v => exists s,
              format_hex (twos_complement v max_val) hex_digits = Ok s) flat ->
  exists lines,
    Forall2 (fun v s =>
               format_hex (twos_complement v max_val) hex_digits = Ok s)
            flat lines
    /\ forall written,
        write_values flat max_val hex_digits written
        = Ok (written ++ Spec.unlines lines).
Proof.
  induction 1 as [|v flat [s Hs] _ (lines & HF & HW)].
  - exists []. split; [constructor|]. intros written. cbn.
    f_equal. induction written as [|c written IH]; cbn; congruence.
  - exists (s :: lines). split; [constructor; assumption|].
    intros written. cbn [write_values Spec.unlines]. rewrite Hs.
    cbn [Py.bind]. rewrite HW, !str_app_assoc. reflexivity.
Qed.

Lemma Forall2_nth_error_l {A B : Type} (R : A -> B -> Prop)
      (l : list A) (l' : list B) (i : nat) (x : A) :
  Forall2 R l l' -> nth_error l i = Some x ->
  exists y, nth_error l' i = Some y /\ R x y.
Proof.
  intros H. revert i. induction H as [|a b l l' Hab _ IH]; intros i Hi.
  - destruct i; discriminate.
  - destruct i as [|i]; cbn in *.
    + injection Hi as <-. eauto.
    + apply IH, Hi.
Qed.

(** C4. For a width that is a multiple of four and a tensor whose elements
    lie in the signed range of that width, [weights_to_hexfile] writes one
    line per scalar, in the order of the flattened tensor; the line of a
    value [v] is made of exactly [width_bits / 4] lowercase hexadecimal
    digits and reads back as [v + 2^width_bits] for a negative [v] and as
    [v] otherwise.  With [width_bits = 8] the values -1, 127, -128 and 0
    give the lines "ff", "7f", "80" and "00". *)
Theorem weights_to_hexfile_spec :
  (forall (tensor_int : tensor Z) (filename : string) (width_bits : Z)
          (w : world),
      width_bits mod 4 = 0 ->
      Forall (Spec.in_range width_bits) (flatten tensor_int) ->
      exists lines,
        weights_to_hexfile tensor_int filename width_bits w
        = Ok (mkWorld
                (PyDict.set filename (Text (Spec.unlines lines)) (files w))
                (stdout w))
        /\ List.length lines = List.length (flatten tensor_int)
        /\ forall i v,
            nth_error (flatten tensor_int) i = Some v ->
            exists s,
              nth_error lines i = Some s
              /\ Z.of_nat (String.length s) = width_bits / 4
              /\ Spec.lowercase_hex s
              /\ Spec.hex_value s
                 = Some (if v <? 0 then v + 2 ^ width_bits else v))
  /\ (forall (filename : string) (w : world),
         weights_to_hexfile
           (Dim [Dim [Scalar (-1); Scalar 127]; Dim [Scalar (-128); Scalar 0]])
           filename 8 w
         = Ok (mkWorld
                 (PyDict.set filename
                    (Text (Spec.unlines ["ff"; "7f"; "80"; "00"])) (files w))
                 (stdout w))).
Proof.
  split; [|reflexivity].
  intros tensor_int filename width_bits w Hm Hr.
  assert (Hfmt : forall v, Spec.in_range width_bits v ->
            exists s,
              format_hex (twos_complement v (2 ^ width_bits)) (width_bits / 4)
              = Ok s
              /\ Z.of_nat (String.length s) = width_bits / 4
              /\ Spec.lowercase_hex s
              /\ Spec.hex_value s
                 = Some (twos_complement v (2 ^ width_bits))).
  { intros v Hv. pose proof (in_range_width _ _ Hv) as Hw.
    pose proof (twos_complement_range _ _ Hv) as Htc.
    apply format_hex_fits.
    - pose proof (Z.div_mod width_bits 4 ltac:(lia)). lia.
    - rewrite sixteen_pow_quarter by lia. exact Htc. }
  destruct (write_values_lines (flatten tensor_int) (2 ^ width_bits)
              (width_bits / 4)) as (lines & HF & HW).
  { eapply Forall_impl; [|exact Hr]. intros v Hv.
    destruct (Hfmt v Hv) as (s & Hs & _). eauto. }
  exists lines. unfold weights_to_hexfile. rewrite HW. cbn [Py.bind append].
  split; [reflexivity|]. split; [symmetry; eapply Forall2_length, HF|].
  intros i v Hi.
  destruct (Forall2_nth_error_l _ _ _ _ _ HF Hi) as (s & Hs & Hfs).
  exists s. split; [exact Hs|].
  assert (Hv : Spec.in_range width_bits v).
  { rewrite Forall_forall in Hr. eapply Hr, nth_error_In, Hi. }
  destruct (Hfmt v Hv) as (s' & Hs' & Hlen & Hhex & Hval).
  assert (s' = s) by congruence. subst s'. auto.
Qed.

(** C5, on the code. The export passes [width_bits = 8] for a name that
    contains "bias" and [width_bits = 2] for every other name, never 32; on
    the weight [-1, 127, -128, 0] and the bias [70000, -1] it writes the
    lines "3", "7f", "-7c", "0" and "11170", "ff", where the widths 8 and
    32 give "ff", "7f", "80", "00" and "00011170", "ffffffff". *)
Theorem export_widths_are_two_and_eight :
  (forall name, export_width name = if Str.contains "bias" name then 8 else 2)
  /\ export_width "fc.weight" = 2
  /\ export_width "fc.bias" = 8
  /\ save_model_weights_hex
       [("fc.weight",
         Quantize.mkParam
           (Dim [Scalar (-1); Scalar 127; Scalar (-128); Scalar 0]) 1%Q None);
        ("fc.bias",
         Quantize.mkParam (Dim [Scalar 70000; Scalar (-1)]) 1%Q
                          (Some (Quantize.mkRequant 2%Q 2 0)))]
       "weights/" (mkWorld [] [])
     = Ok (mkWorld
             [("weights/fc_weight.hex",
               Text (Spec.unlines ["3"; "7f"; "-7c"; "0"]));
              ("weights/fc_bias.hex", Text (Spec.unlines ["11170"; "ff"]));
              ("weights/requant_params.json",
               Json [("fc.bias", Quantize.mkRequant 2%Q 2 0)])]
             ["Saved fc.weight to weights/fc_weight.hex";
              "Saved fc.bias to weights/fc_bias.hex";
              "Saved requant params to weights/requant_params.json"])
  /\ write_values [-1; 127; -128; 0] (2 ^ 8) (8 / 4) ""
     = Ok (Spec.unlines ["ff"; "7f"; "80"; "00"])
  /\ write_values [70000; -1] (2 ^ 32) (32 / 4) ""
     = Ok (Spec.unlines ["00011170"; "ffffffff"]).
Proof.
  split; [reflexivity|]. repeat split; vm_compute; reflexivity.
Qed.

End HexExport.

(** ** The properties on sample inputs *)

Section Instances.

Import Quantize ConvertToHex.
Local Open Scope string_scope.
Local Open Scope Z_scope.

Lemma compute_scale_shift_two :
  (0 < 2)%Q /\ (2 < inject_Z Py.float_limit)%Q /\ 0 <= 16
  /\ ((exists scale_int shift,
          compute_scale_shift 2 16 31 = Ok (scale_int, shift)
          /\ scale_int = Py.round (2 * inject_Z (2 ^ shift))
          /\ 0 <= scale_int < 2 ^ 16
          /\ 0 <= shift < 31
          /\ forall sh', 0 <= sh' < shift -> ~ Spec.fits 2 16 sh')
      \/ ((forall sh', 0 <= sh' < 31 -> ~ Spec.fits 2 16 sh')
          /\ ((compute_scale_shift 2 16 31 = Raise cannot_represent
               /\ forall sh', 0 <= sh' < 31 -> Spec.finite_product 2 sh' = true)
              \/ ((exists msg,
                      compute_scale_shift 2 16 31 = Raise (Py.OverflowError msg))
                  /\ exists sh', 0 <= sh' < 31
                                 /\ Spec.finite_product 2 sh' = false)))).
Proof.
  split; [reflexivity|]. split; [vm_compute; reflexivity|]. split; [lia|].
  apply (compute_scale_shift_minimal_or_raises 2 16 31);
    [reflexivity|vm_compute; reflexivity|lia].
Defined.

(** The claim C1 as it is worded fails on the float [2^1023]: no shift of
    [[0, 31)] brings its mantissa below [2^16], and the search does not end
    with its [ValueError]: the product of the shift 1 is an infinity, on
    which [round] raises an [OverflowError]. *)
Lemma solver_overflows_at_2_pow_1023 :
  (0 < inject_Z (2 ^ 1023))%Q
  /\ (forall sh, 0 <= sh < 31 -> ~ Spec.fits (inject_Z (2 ^ 1023)) 16 sh)
  /\ compute_scale_shift (inject_Z (2 ^ 1023)) 16 31
     = Raise (Py.OverflowError "cannot convert float infinity to integer")
  /\ compute_scale_shift (inject_Z (2 ^ 1023)) 16 31 <> Raise cannot_represent.
Proof.
  split; [vm_compute; reflexivity|]. split.
  - intros sh H. unfold Spec.fits.
    assert (P : (0 <= inject_Z (2 ^ 1023))%Q) by (vm_compute; discriminate).
    pose proof (mantissa_ge_round (inject_Z (2 ^ 1023)) sh P ltac:(lia)) as M.
    rewrite round_inject_Z in M.
    assert (2 ^ 16 <= 2 ^ 1023) by (apply Z.pow_le_mono_r; lia). lia.
  - assert (E : compute_scale_shift (inject_Z (2 ^ 1023)) 16 31
                = Raise (Py.OverflowError
                           "cannot convert float infinity to integer"))
      by (vm_compute; reflexivity).
    split; [exact E|]. rewrite E. discriminate.
Qed.

Lemma sample_zeros_quantize :
  flatten Samples.zeros <> []
  /\ Forall (fun x => x == 0)%Q (flatten Samples.zeros)
  /\ quantize_tensor Samples.zeros 8 = Ok (Dim [Scalar 0; Scalar 0], 1%Q).
Proof.
  assert (H1 : flatten Samples.zeros <> []) by (cbn; discriminate).
  assert (H2 : Forall (fun x => x == 0)%Q (flatten Samples.zeros))
    by (repeat constructor).
  split; [exact H1|]. split; [exact H2|].
  apply (quantize_tensor_all_zero Samples.zeros 8 H1 H2).
Defined.

Lemma sample_ints_hexfile :
  8 mod 4 = 0
  /\ Forall (Spec.in_range 8) (flatten Samples.ints)
  /\ exists lines,
      weights_to_hexfile Samples.ints "w.hex" 8 (mkWorld [] [])
      = Ok (mkWorld [("w.hex", Text (Spec.unlines lines))] [])
      /\ List.length lines = 4%nat
      /\ forall i v,
          nth_error (flatten Samples.ints) i = Some v ->
          exists s,
            nth_error lines i = Some s
            /\ Z.of_nat (String.length s) = 8 / 4
            /\ Spec.lowercase_hex s
            /\ Spec.hex_value s = Some (if v <? 0 then v + 2 ^ 8 else v).
Proof.
  assert (H : Forall (Spec.in_range 8) (flatten Samples.ints)).
  { repeat constructor; unfold Spec.in_range; cbn; lia. }
  split; [reflexivity|]. split; [exact H|].
  apply (proj1 weights_to_hexfile_spec Samples.ints "w.hex" 8 (mkWorld [] [])
               eq_refl H).
Defined.

Lemma sample_bias_before_weight :
  chain_run 8 32 chain_init [("layer1.weight", Samples.weight)]
  = Ok (mkChain
          [("layer1.weight",
            mkParam (Dim [Dim [Scalar 127; Scalar (-2)];
                          Dim [Scalar 1; Scalar 0]])
                    (127 # 254) None)]
          [("layer1.weight", (1%Q, (127 # 254)%Q))] 1%Q)
  /\ Str.contains "weight" "layer2.bias" = false
  /\ Str.contains "bias" "layer2.bias" = true
  /\ quantize_model_weights
       ([("layer1.weight", Samples.weight)]
          ++ ("layer2.bias", Samples.bias) :: [("layer2.weight", Samples.weight)])
       8 32
     = Raise (weight_not_quantized "layer2.bias").
Proof.
  assert (H : chain_run 8 32 chain_init [("layer1.weight", Samples.weight)]
              = Ok (mkChain
                      [("layer1.weight",
                        mkParam (Dim [Dim [Scalar 127; Scalar (-2)];
                                      Dim [Scalar 1; Scalar 0]])
                                (127 # 254) None)]
                      [("layer1.weight", (1%Q, (127 # 254)%Q))] 1%Q))
    by (vm_compute; reflexivity).
  split; [exact H|]. split; [reflexivity|]. split; [reflexivity|].
  apply (bias_before_weight_raises 8 32 _ _ "layer2.bias" Samples.bias _ H);
    reflexivity.
Defined.

(** The claim C6 as it is worded fails on a bias whose name also contains
    "weight": nothing is recorded under "weighted.weight", yet the call
    returns, with the parameter quantised as a weight. *)
Lemma bias_named_weighted_is_not_rejected :
  Str.contains "bias" "weighted.bias" = true
  /\ PyDict.mem (Str.replace "bias" "weight" "weighted.bias")
                (quantized_params chain_init) = false
  /\ quantize_model_weights [("weighted.bias", Dim [Scalar 3%Q])] 8 32
     = Ok [("weighted.bias", mkParam (Dim [Scalar 127]) (3 # 127) None)]
  /\ quantize_model_weights [("weighted.bias", Dim [Scalar 3%Q])] 8 32
     <> Raise (weight_not_quantized "weighted.bias").
Proof.
  repeat split; try (vm_compute; reflexivity). vm_compute. discriminate.
Qed.

Lemma sample_bias_requant :
  classify "layer1.bias" = Bias
  /\ exists in_scale w_scale si sh,
      PyDict.get (Str.replace "bias" "weight" "layer1.bias")
                 [("layer1.weight", (1%Q, (1 # 2)%Q))]
      = Some (in_scale, w_scale)
      /\ compute_scale_shift (1 / (in_scale * w_scale)) 16 31 = Ok (si, sh)
      /\ option_map requant
           (PyDict.get "layer1.bias"
              [("layer1.weight", mkParam (Scalar 1) (1 # 2) None);
               ("layer1.bias",
                mkParam (Dim [Scalar 2; Scalar (-14)]) (1 # 2)
                        (Some (mkRequant 2 2 0)))])
         = Some (Some (mkRequant (1 / (in_scale * w_scale)) si sh))
      /\ 1%Q = 1%Q.
Proof.
  split; [reflexivity|].
  apply (proj1 bias_requant_params 8 32
           (mkChain [("layer1.weight", mkParam (Scalar 1) (1 # 2) None)]
                    [("layer1.weight", (1%Q, (1 # 2)%Q))] 1%Q)
           (mkChain [("layer1.weight", mkParam (Scalar 1) (1 # 2) None);
                     ("layer1.bias",
                      mkParam (Dim [Scalar 2; Scalar (-14)]) (1 # 2)
                              (Some (mkRequant 2 2 0)))]
                    [("layer1.weight", (1%Q, (1 # 2)%Q))] 1%Q)
           "layer1.bias" Samples.bias eq_refl).
  vm_compute. reflexivity.
Defined.

Lemma sample_weighted_bias_is_weight :
  Str.contains "weight" "weighted.bias" = true
  /\ Str.contains "bias" "weighted.bias" = true
  /\ classify "weighted.bias" = Weight
  /\ chain_step 8 32 chain_init ("weighted.bias", Samples.bias)
     <> Raise (weight_not_quantized "weighted.bias")
  /\ (forall e, quantize_tensor Samples.bias 8 = Raise e ->
                chain_step 8 32 chain_init ("weighted.bias", Samples.bias)
                = Raise e)
  /\ (forall q_w w_scale,
         quantize_tensor Samples.bias 8 = Ok (q_w, w_scale) ->
         exists st',
           chain_step 8 32 chain_init ("weighted.bias", Samples.bias) = Ok st'
           /\ PyDict.get "weighted.bias" (quantized_params st')
              = Some (mkParam q_w w_scale None)
           /\ PyDict.get "weighted.bias" (layer_scales st')
              = Some (prev_output_scale chain_init, w_scale)
           /\ prev_output_scale st' = prev_output_scale chain_init).
Proof.
  split; [reflexivity|]. split; [reflexivity|].
  apply (weight_and_bias_name_is_weight 8 32 chain_init "weighted.bias"
           Samples.bias eq_refl eq_refl).
Defined.

End Instances.

(** * Further properties of the code *)

(** ** The solver never uses a shift *)

Section SolverClosedForm.

Import Quantize.
Local Open Scope Z_scope.

(** X1. [compute_scale_shift] in closed form: whenever it returns, the shift
    is 0 and the mantissa is [round(real_scale)].  It raises the [ValueError]
    of the search when [max_shift <= 0]; otherwise an [OverflowError] when
    [real_scale] is not a finite float, a [ValueError] when [scale_bits] is
    negative, and, when [round(real_scale)] does not fit in [scale_bits]
    bits, no larger shift fits either: the search ends with its [ValueError]
    if the product of the last shift is a finite float, and with an
    [OverflowError] if not, raised by [round] on an infinite product for the
    scales from 2 on and by the conversion of [2^1024] for the others. *)
Theorem compute_scale_shift_closed_form (real_scale : Q) (scale_bits max_shift : Z) :
  compute_scale_shift real_scale scale_bits max_shift
  = if max_shift <=? 0 then Raise cannot_represent
    else if Qle_bool (inject_Z Py.float_limit) (Qabs real_scale)
    then Raise Py.infinity_to_int
    else if scale_bits <? 0 then Raise (Py.ValueError "negative shift count")
    else if Py.round real_scale <? 2 ^ scale_bits
    then Ok (Py.round real_scale, 0)
    else if Spec.finite_product real_scale (max_shift - 1)
    then Raise cannot_represent
    else Raise (if Qle_bool 2 real_scale
                then Py.infinity_to_int else Py.int_too_large).
Proof. apply scale_shift_closed. Qed.

End SolverClosedForm.

(** ** The scale of the weight quantiser *)

Section QuantizerOutcome.

Import Quantize.
Local Open Scope Q_scope.

Lemma pow2_below_one (n : Z) : (n < 0)%Z -> Py.pow2 n < 1.
Proof.
  intros H. unfold Py.pow2.
  replace n with (- (- n))%Z by lia. rewrite Qpower_opp.
  rewrite <- (Zpower_Qpower 2 (- n)) by lia.
  assert (2 ^ 1 <= 2 ^ (- n))%Z by (apply Z.pow_le_mono_r; lia).
  assert (Hq : inject_Z (2 ^ 1) <= inject_Z (2 ^ (- n)))
    by (rewrite <- Zle_Qle; assumption).
  change (inject_Z (2 ^ 1)) with 2 in Hq.
  set (d := inject_Z (2 ^ (- n))) in *.
  assert (E : / d == 1 / d) by (field; lra). rewrite E.
  apply Qlt_shift_div_r; lra.
Qed.

(** [qmax] is zero for exactly one bit count. *)
Lemma qmax_zero_iff (b : Z) : Py.pow2 (b - 1) - 1 == 0 <-> b = 1%Z.
Proof.
  split.
  - intros E. destruct (Z.lt_trichotomy b 1) as [C|[C|C]]; [|exact C|].
    + pose proof (pow2_below_one (b - 1) ltac:(lia)). lra.
    + rewrite qmax_int in E by lia.
      change 0 with (inject_Z 0) in E. rewrite inject_Z_injective in E.
      assert (2 ^ 1 <= 2 ^ (b - 1))%Z by (apply Z.pow_le_mono_r; lia).
      change (2 ^ 1)%Z with 2%Z in *. lia.
  - intros ->. reflexivity.
Qed.

Lemma no_nonzero_iff (l : list Q) :
  existsb (fun x => negb (Qeq_bool x 0)) l = false <-> Forall (fun x => x == 0) l.
Proof.
  induction l as [|x l IH]; cbn.
  - split; [constructor|reflexivity].
  - rewrite orb_false_iff, IH, negb_false_iff, Qeq_bool_iff. split.
    + intros [H1 H2]. constructor; assumption.
    + intros H. inversion H; subst. split; assumption.
Qed.

(** [max_abs] is zero exactly on the all-zero tensors. *)
Lemma max_abs_zero_iff (t : tensor Q) (lo hi : Q) :
  Tensor.min t = Ok lo -> Tensor.max t = Ok hi ->
  (Py.max (Qabs lo) (Qabs hi) == 0 <-> Forall (fun x => x == 0) (flatten t)).
Proof.
  intros Hmin Hmax. split.
  - intros E. apply Forall_forall. intros x Hx.
    pose proof (max_abs_bound lo hi x (min_max_bound t lo hi x Hmin Hmax Hx)) as B.
    rewrite E in B. apply Qabs_Qle_condition in B. lra.
  - intros Hz. rewrite Forall_forall in Hz.
    unfold Tensor.min, Tensor.max in *.
    destruct (flatten t) as [|x0 xs]; [discriminate|].
    injection Hmin as <-. injection Hmax as <-.
    pose proof (Hz _ (fold_pick_in Py.min xs x0 py_min_cases)) as Elo.
    pose proof (Hz _ (fold_pick_in Py.max xs x0 py_max_cases)) as Ehi.
    destruct (py_max_cases (Qabs (fold_left Py.min xs x0))
                           (Qabs (fold_left Py.max xs x0))) as [-> | ->];
      [rewrite Elo|rewrite Ehi]; reflexivity.
Qed.

Lemma quantize_tensor_cases (t : tensor Q) (num_bits : Z) :
  match flatten t with
  | [] => quantize_tensor t num_bits = Raise (Tensor.empty_reduction "min")
  | _ :: _ =>
      if (num_bits =? 1)%Z && existsb (fun x => negb (Qeq_bool x 0)) (flatten t)
      then quantize_tensor t num_bits
           = Raise (Py.ZeroDivisionError "float division by zero")
      else exists q s, quantize_tensor t num_bits = Ok (q, s) /\ ~ s == 0
  end.
Proof.
  destruct (flatten t) as [|x0 xs] eqn:Ef.
  - unfold quantize_tensor, Tensor.min. rewrite Ef. reflexivity.
  - rewrite <- Ef.
    destruct (reductions_return t) as (lo & hi & Hmin & Hmax); [congruence|].
    pose proof (max_abs_zero_iff t lo hi Hmin Hmax) as Hz.
    pose proof (no_nonzero_iff (flatten t)) as Hn.
    unfold quantize_tensor. rewrite Hmin, Hmax. cbn [Py.bind].
    destruct (Qeq_bool (Py.max (Qabs lo) (Qabs hi)) 0) eqn:E0; cbn [negb].
    + apply Qeq_bool_eq in E0. rewrite (proj2 Hn (proj1 Hz E0)), andb_false_r.
      cbn [Py.bind]. eexists _, _. split; [reflexivity|]. discriminate.
    + assert (En : existsb (fun x => negb (Qeq_bool x 0)) (flatten t) = true).
      { apply not_false_is_true. intros C. apply Qeq_bool_neq in E0.
        apply E0, Hz, Hn, C. }
      rewrite En, andb_true_r. unfold Py.div.
      destruct (Z.eqb_spec num_bits 1) as [->|N].
      * reflexivity.
      * assert (Eq : Qeq_bool (Py.pow2 (num_bits - 1) - 1) 0 = false).
        { apply not_true_is_false. intros C. apply Qeq_bool_eq in C.
          apply N, qmax_zero_iff, C. }
        rewrite Eq. cbn [Py.bind]. eexists _, _. split; [reflexivity|].
        apply Qeq_bool_neq in E0, Eq. intros C.
        apply E0.
        assert (E : Py.max (Qabs lo) (Qabs hi)
                    == Py.max (Qabs lo) (Qabs hi) / (Py.pow2 (num_bits - 1) - 1)
                       * (Py.pow2 (num_bits - 1) - 1)) by (field; exact Eq).
        rewrite E, C. ring.
Qed.

(** The scale of a successful call is never zero. *)
Lemma quantize_tensor_scale_nonzero (t : tensor Q) (b : Z) (q : tensor Z) (s : Q) :
  quantize_tensor t b = Ok (q, s) -> ~ s == 0.
Proof.
  intros H. pose proof (quantize_tensor_cases t b) as O.
  destruct (flatten t) as [|x0 xs]; [congruence|].
  destruct ((b =? 1)%Z && _); [congruence|].
  destruct O as (q' & s' & E & Hs). congruence.
Qed.

End QuantizerOutcome.

(** ** What the chain keeps true *)

Section ChainInvariant.

Import Quantize.
Local Open Scope string_scope.
Local Open Scope Z_scope.

Lemma classify_bias_inv (name : string) :
  classify name = Bias ->
  Str.contains "weight" name = false /\ Str.contains "bias" name = true.
Proof.
  unfold classify.
  destruct (Str.contains "weight" name); [discriminate|].
  destruct (Str.contains "bias" name); [auto|discriminate].
Qed.

Lemma mem_set {V : Type} (k k0 : string) (v : V) (d : PyDict.dict V) :
  PyDict.mem k0 (PyDict.set k v d) = (String.eqb k0 k || PyDict.mem k0 d)%bool.
Proof.
  unfold PyDict.mem. destruct (String.eqb_spec k0 k) as [->|N].
  - rewrite get_set_same. reflexivity.
  - rewrite (get_set_other k k0 v d N). reflexivity.
Qed.

Lemma mem_set_true {V : Type} (k : string) (v : V) (d : PyDict.dict V) :
  PyDict.mem k (PyDict.set k v d) = true.
Proof. rewrite mem_set, String.eqb_refl. reflexivity. Qed.

Lemma chain_inv_init : Spec.chain_inv chain_init.
Proof.
  unfold Spec.chain_inv, chain_init. cbn.
  split; [reflexivity|]. repeat split; try discriminate.
Qed.

(** The solver as the bias branch calls it. *)
Lemma solver_16_31 (rs : Q) (si sh : Z) :
  compute_scale_shift rs 16 31 = Ok (si, sh) ->
  sh = 0 /\ si = Py.round rs /\ si < 2 ^ 16.
Proof.
  rewrite scale_shift_closed. change (31 <=? 0) with false. cbv iota.
  destruct (Qle_bool _ (Qabs rs)); [discriminate|].
  change (16 <? 0) with false. cbv iota.
  destruct (Z.ltb_spec (Py.round rs) (2 ^ 16)).
  - intros [= <- <-]. auto.
  - destruct (Spec.finite_product rs (31 - 1)); discriminate.
Qed.

Lemma chain_step_inv (num_bits bias_bits : Z) (st st' : chain_state)
      (entry : string * tensor Q) :
  Spec.chain_inv st ->
  chain_step num_bits bias_bits st entry = Ok st' ->
  Spec.chain_inv st'.
Proof.
  intros (Hprev & Hls & Hsub & Hent) Hstep. destruct entry as [name param].
  destruct (classify name) eqn:Hk.
  - (* weight *)
    unfold chain_step in Hstep. rewrite Hk in Hstep.
    destruct (quantize_tensor param num_bits) as [[q_w w_scale]|e] eqn:Hq;
      [|discriminate].
    cbn [Py.bind] in Hstep. injection Hstep as <-.
    pose proof (quantize_tensor_scale_nonzero _ _ _ _ Hq) as Hw.
    unfold Spec.chain_inv. cbn [quantized_params layer_scales prev_output_scale].
    split; [exact Hprev|]. split; [|split].
    + intros k i w. destruct (String.eqb_spec k name) as [->|N].
      * rewrite get_set_same. intros [= <- <-]. auto.
      * rewrite (get_set_other name k _ _ N). apply Hls.
    + intros k. rewrite !mem_set.
      destruct (String.eqb k name); [reflexivity|]. cbn [orb]. apply Hsub.
    + intros k p. destruct (String.eqb_spec k name) as [->|N].
      * rewrite get_set_same. intros [= <-].
        unfold Spec.entry_ok. rewrite Hk. reflexivity.
      * rewrite (get_set_other name k _ _ N). apply Hent.
  - (* bias *)
    destruct (chain_step_bias_inv _ _ _ _ _ _ Hk Hstep)
      as (in_scale & w_scale & si & sh & _ & Hg & Hnz & Hc & ->).
    destruct (classify_bias_inv name Hk) as [Hnw _].
    destruct (solver_16_31 _ _ _ Hc) as (-> & -> & Hlt).
    unfold Spec.chain_inv. cbn [quantized_params layer_scales prev_output_scale].
    split; [reflexivity|]. split; [exact Hls|]. split.
    + intros k. rewrite mem_set.
      destruct (String.eqb_spec k name) as [->|N]; [congruence|]. apply Hsub.
    + intros k p. destruct (String.eqb_spec k name) as [->|N].
      * rewrite get_set_same. intros [= <-].
        unfold Spec.entry_ok. rewrite Hk. eexists. split; [reflexivity|].
        unfold Spec.requant_ok, quantize_bias_tensor.
        cbn [shift scale_int real_scale scale snd].
        repeat split; try assumption. field.
        split; intros C; apply Hnz; rewrite C; ring.
      * rewrite (get_set_other name k _ _ N). apply Hent.
  - unfold chain_step in Hstep. rewrite Hk in Hstep. injection Hstep as <-.
    unfold Spec.chain_inv. auto.
Qed.

Lemma chain_run_inv (num_bits bias_bits : Z) (params : list (string * tensor Q))
      (st st' : chain_state) :
  Spec.chain_inv st ->
  chain_run num_bits bias_bits st params = Ok st' ->
  Spec.chain_inv st'.
Proof.
  revert st. induction params as [|entry params IH]; intros st Hinv; cbn.
  - intros [= <-]. exact Hinv.
  - destruct (chain_step num_bits bias_bits st entry) as [st1|e] eqn:Hs;
      [|discriminate].
    cbn [Py.bind]. apply IH. eapply chain_step_inv; eassumption.
Qed.

(** X7. Every entry of the dictionary [quantize_model_weights] returns is
    that of a weight, without requantisation parameters, or that of a bias,
    whose parameters have the shift 0, the mantissa [round(real_scale)]
    below [2^16], and a real scale that is the inverse of the bias scale. *)
Theorem quantize_model_weights_entries
        (model : list (string * tensor Q)) (num_bits bias_bits : Z)
        (out : PyDict.dict quantized_param) :
  quantize_model_weights model num_bits bias_bits = Ok out ->
  forall name p,
    PyDict.get name out = Some p ->
    (classify name = Weight /\ requant p = None)
    \/ (classify name = Bias
        /\ exists r,
            requant p = Some r
            /\ shift r = 0
            /\ scale_int r = Py.round (real_scale r)
            /\ scale_int r < 2 ^ 16
            /\ (real_scale r * scale p == 1)%Q).
Proof.
  unfold quantize_model_weights.
  destruct (chain_run num_bits bias_bits chain_init model) as [st|e] eqn:Hr;
    cbn [Py.bind]; [|discriminate].
  intros [= <-] name p Hg.
  destruct (chain_run_inv _ _ _ _ _ chain_inv_init Hr) as (_ & _ & _ & Hent).
  specialize (Hent name p Hg). unfold Spec.entry_ok in Hent.
  destruct (classify name).
  - left. auto.
  - right. split; [reflexivity|].
    destruct Hent as (r & Er & H1 & H2 & H3 & H4). exists r. auto.
  - contradiction.
Qed.

End ChainInvariant.

(** ** Which parameters the chain returns *)

Section ChainKeys.

Import Quantize.
Local Open Scope string_scope.
Local Open Scope Z_scope.

Lemma chain_step_keys (num_bits bias_bits : Z) (st st' : chain_state)
      (name : string) (param : tensor Q) (k : string) :
  chain_step num_bits bias_bits st (name, param) = Ok st' ->
  PyDict.mem k (quantized_params st')
  = ((String.eqb k name && match classify name with Other => false | _ => true end)
     || PyDict.mem k (quantized_params st))%bool.
Proof.
  intros Hstep. destruct (classify name) eqn:Hk.
  - unfold chain_step in Hstep. rewrite Hk in Hstep.
    destruct (quantize_tensor param num_bits) as [[q_w w_scale]|e];
      [|discriminate].
    injection Hstep as <-. cbn [quantized_params].
    rewrite mem_set, andb_true_r. reflexivity.
  - destruct (chain_step_bias_inv _ _ _ _ _ _ Hk Hstep)
      as (in_scale & w_scale & si & sh & _ & _ & _ & _ & ->).
    cbn [quantized_params]. rewrite mem_set, andb_true_r. reflexivity.
  - unfold chain_step in Hstep. rewrite Hk in Hstep. injection Hstep as <-.
    rewrite andb_false_r. reflexivity.
Qed.

Lemma chain_run_keys (num_bits bias_bits : Z) (params : list (string * tensor Q))
      (st st' : chain_state) (k : string) :
  chain_run num_bits bias_bits st params = Ok st' ->
  (PyDict.mem k (quantized_params st') = true
   <-> PyDict.mem k (quantized_params st) = true
       \/ (classify k <> Other /\ exists param, In (k, param) params)).
Proof.
  revert st. induction params as [|[name param] params IH]; intros st;
    cbn [chain_run].
  - intros [= <-]. split; [auto|]. intros [H|(_ & p & [])]. exact H.
  - destruct (chain_step num_bits bias_bits st (name, param)) as [st1|e] eqn:Hs;
      [|discriminate].
    cbn [Py.bind]. intros Hr. rewrite (IH st1 Hr).
    rewrite (chain_step_keys _ _ _ _ _ _ k Hs).
    rewrite orb_true_iff, andb_true_iff. split.
    + intros [[[He Hc]|Hm]|(Hc & p & Hin)].
      * apply String.eqb_eq in He. subst k. right. split.
        -- destruct (classify name); congruence.
        -- exists param. left. reflexivity.
      * left. exact Hm.
      * right. split; [exact Hc|]. exists p. right. exact Hin.
    + intros [Hm|(Hc & p & [E|Hin])].
      * left. right. exact Hm.
      * injection E as -> ->. left. left. split; [apply String.eqb_refl|].
        destruct (classify k); congruence.
      * right. split; [exact Hc|]. exists p. exact Hin.
Qed.

(** X8. The keys of the dictionary [quantize_model_weights] returns are the
    names of the model that contain "weight" or "bias": every such parameter
    has an entry, and a parameter whose name contains neither has none. *)
Theorem quantize_model_weights_keys
        (model : list (string * tensor Q)) (num_bits bias_bits : Z)
        (out : PyDict.dict quantized_param) (name : string) :
  quantize_model_weights model num_bits bias_bits = Ok out ->
  (PyDict.mem name out = true
   <-> (Str.contains "weight" name = true \/ Str.contains "bias" name = true)
       /\ exists param, In (name, param) model).
Proof.
  unfold quantize_model_weights.
  destruct (chain_run num_bits bias_bits chain_init model) as [st|e] eqn:Hr;
    cbn [Py.bind]; [|discriminate].
  intros [= <-]. rewrite (chain_run_keys _ _ _ _ _ name Hr).
  assert (Hc : classify name <> Other
               <-> Str.contains "weight" name = true
                   \/ Str.contains "bias" name = true).
  { unfold classify. destruct (Str.contains "weight" name);
      destruct (Str.contains "bias" name); split; intros H;
      try congruence; auto; destruct H; discriminate. }
  rewrite Hc. split.
  - intros [H|H]; [discriminate|exact H].
  - intros H. right. exact H.
Qed.

(** X9. A parameter whose name contains neither "weight" nor "bias" is
    skipped: removing it from the model changes neither the result nor the
    exception of [quantize_model_weights]. *)
Theorem other_parameters_are_ignored
        (pre post : list (string * tensor Q)) (name : string) (param : tensor Q)
        (num_bits bias_bits : Z) :
  Str.contains "weight" name = false ->
  Str.contains "bias" name = false ->
  quantize_model_weights (pre ++ (name, param) :: post) num_bits bias_bits
  = quantize_model_weights (pre ++ post) num_bits bias_bits.
Proof.
  intros Hw Hb. unfold quantize_model_weights.
  rewrite !chain_run_app.
  destruct (chain_run num_bits bias_bits chain_init pre) as [st|e];
    cbn [Py.bind chain_run]; [|reflexivity].
  unfold chain_step, classify. rewrite Hw, Hb. reflexivity.
Qed.

End ChainKeys.

(** ** Reading a hex file back *)

Section HexRoundTrip.

Import ConvertToHex.
Local Open Scope string_scope.
Local Open Scope Z_scope.

Lemma str_app_nil_r (s : string) : s ++ "" = s.
Proof. induction s as [|c s IH]; cbn; [reflexivity|]. f_equal. exact IH. Qed.

(** A line of hexadecimal digits is read up to the newline that ends it. *)
Lemma lines_from_line (s rest cur : string) :
  Spec.lowercase_hex s ->
  Spec.lines_from (s ++ Str.newline ++ rest) cur
  = (cur ++ s) :: Spec.lines_from rest "".
Proof.
  revert cur. induction s as [|c s IH]; intros cur Hs.
  - cbn. rewrite str_app_nil_r. reflexivity.
  - destruct Hs as [Hc Hs]. cbn [append Spec.lines_from].
    destruct (Ascii.eqb_spec c (ascii_of_nat 10)) as [->|N].
    + exfalso. apply Hc. reflexivity.
    + rewrite (IH _ Hs), str_app_assoc. reflexivity.
Qed.

Lemma lines_from_unlines (lines : list string) :
  Forall Spec.lowercase_hex lines ->
  Spec.lines_from (Spec.unlines lines) "" = lines.
Proof.
  induction 1 as [|l lines Hl _ IH]; cbn [Spec.unlines].
  - reflexivity.
  - rewrite (lines_from_line l _ "" Hl), IH. reflexivity.
Qed.

Lemma decode_twos_complement_inverse (w v : Z) :
  Spec.in_range w v ->
  Spec.decode_twos_complement w (twos_complement v (2 ^ w)) = v.
Proof.
  intros H. pose proof (in_range_width w v H) as Hw.
  unfold Spec.in_range in H.
  unfold Spec.decode_twos_complement, twos_complement.
  assert (E : 2 ^ w = 2 * 2 ^ (w - 1)).
  { replace w with (Z.succ (w - 1)) at 1 by lia. apply Z.pow_succ_r. lia. }
  destruct (Z.ltb_spec v 0).
  - destruct (Z.ltb_spec (v + 2 ^ w) (2 ^ (w - 1))); lia.
  - destruct (Z.ltb_spec v (2 ^ (w - 1))); lia.
Qed.

(** The lines [write_values] produces for values in range: their number,
    their width and what they read back as. *)
Lemma write_values_in_range (flat : list Z) (w : Z) :
  w mod 4 = 0 ->
  Forall (Spec.in_range w) flat ->
  exists lines,
    (forall written,
        write_values flat (2 ^ w) (w / 4) written
        = Ok (written ++ Spec.unlines lines))
    /\ Forall Spec.lowercase_hex lines
    /\ Forall (fun s => Z.of_nat (String.length s) = w / 4) lines
    /\ List.length lines = List.length flat
    /\ Spec.decode_lines w lines = Some flat.
Proof.
  intros Hm. induction 1 as [|v flat Hv _ (lines & HW & HL & HN & Hlen & HD)].
  - exists []. repeat split; try constructor.
    intros written. cbn. rewrite str_app_nil_r. reflexivity.
  - pose proof (in_range_width _ _ Hv) as Hw.
    destruct (format_hex_fits (twos_complement v (2 ^ w)) (w / 4))
      as (s & Hs & Hsl & Hsh & Hsv).
    { pose proof (Z.div_mod w 4 ltac:(lia)). lia. }
    { rewrite sixteen_pow_quarter by lia. apply twos_complement_range, Hv. }
    exists (s :: lines). split; [|split; [|split; [|split]]].
    + intros written. cbn [write_values Spec.unlines]. rewrite Hs.
      cbn [Py.bind]. rewrite HW, !str_app_assoc. reflexivity.
    + constructor; assumption.
    + constructor; assumption.
    + cbn. f_equal. exact Hlen.
    + cbn [Spec.decode_lines]. rewrite Hsv, HD.
      rewrite (decode_twos_complement_inverse w v Hv). reflexivity.
Qed.

(** X11. Round trip of the hex file: for a width that is a multiple of four
    and elements within its signed range, reading the file
    [weights_to_hexfile] writes, line by line as two's-complement words of
    that width, gives back the flattened tensor. *)
Theorem hexfile_round_trip
        (tensor_int : tensor Z) (filename : string) (width_bits : Z) (w : world) :
  width_bits mod 4 = 0 ->
  Forall (Spec.in_range width_bits) (flatten tensor_int) ->
  exists text w',
    weights_to_hexfile tensor_int filename width_bits w = Ok w'
    /\ PyDict.get filename (files w') = Some (Text text)
    /\ Spec.read_hex_file width_bits text = Some (flatten tensor_int).
Proof.
  intros Hm Hr.
  destruct (write_values_in_range _ _ Hm Hr) as (lines & HW & HL & _ & _ & HD).
  unfold weights_to_hexfile. rewrite HW. cbn [Py.bind append].
  eexists _, _. split; [reflexivity|]. cbn [files].
  split; [apply get_set_same|].
  unfold Spec.read_hex_file. rewrite (lines_from_unlines lines HL). exact HD.
Qed.

Lemma unlines_length (lines : list string) (k : Z) :
  Forall (fun s => Z.of_nat (String.length s) = k) lines ->
  Z.of_nat (String.length (Spec.unlines lines))
  = Z.of_nat (List.length lines) * (k + 1).
Proof.
  induction 1 as [|l lines Hl _ IH]; [reflexivity|].
  cbn [Spec.unlines List.length]. rewrite !str_length_app.
  change (String.length Str.newline) with 1%nat. lia.
Qed.

(** X12. Fixed record size: for a width that is a multiple of four and
    elements within its signed range, the file holds
    [numel * (width_bits / 4 + 1)] characters, and an earlier file of the
    same name is replaced, not appended to. *)
Theorem hexfile_size
        (tensor_int : tensor Z) (filename : string) (width_bits : Z) (w : world) :
  width_bits mod 4 = 0 ->
  Forall (Spec.in_range width_bits) (flatten tensor_int) ->
  exists text w',
    weights_to_hexfile tensor_int filename width_bits w = Ok w'
    /\ PyDict.get filename (files w') = Some (Text text)
    /\ Z.of_nat (String.length text)
       = Z.of_nat (Tensor.numel tensor_int) * (width_bits / 4 + 1)
    /\ forall other, other <> filename ->
                     PyDict.get other (files w') = PyDict.get other (files w).
Proof.
  intros Hm Hr.
  destruct (write_values_in_range _ _ Hm Hr) as (lines & HW & _ & HN & Hlen & _).
  unfold weights_to_hexfile. rewrite HW. cbn [Py.bind append].
  eexists _, _. split; [reflexivity|]. cbn [files].
  split; [apply get_set_same|]. split.
  - rewrite (unlines_length lines _ HN). unfold Tensor.numel. rewrite Hlen.
    reflexivity.
  - intros other N. apply get_set_other, N.
Qed.

End HexRoundTrip.

(** ** The export: what it writes and when it fails *)

Section ExportFacts.

Import ConvertToHex.
Local Open Scope string_scope.
Local Open Scope Z_scope.

Lemma hex_value_zeros_digits (n : nat) (v : Z) :
  0 <= v -> Spec.hex_value (zeros n ++ hex_of_nat v) = Some v.
Proof.
  intros Hv. destruct (zeros_facts n) as (_ & _ & Zv).
  destruct (hex_of_nat_spec v Hv) as (_ & Hval & _).
  unfold Spec.hex_value in *. rewrite hex_value_acc_app, Zv. exact Hval.
Qed.

(** X13. A value outside the range of the width is written in full, not
    reduced to the width: for a non-negative width, a non-negative [val]
    reads back as [val] itself, however large, and a [val] below
    [-2^width_bits] is written as a minus sign followed by the digits of
    [-(val + 2^width_bits)]. *)
Theorem out_of_range_values_are_not_wrapped (val width_bits : Z) :
  0 <= width_bits ->
  exists line,
    format_hex (twos_complement val (2 ^ width_bits)) (width_bits / 4) = Ok line
    /\ (0 <= val -> Spec.hex_value line = Some val)
    /\ (val < - 2 ^ width_bits ->
        exists digits,
          line = "-" ++ digits
          /\ Spec.hex_value digits = Some (- (val + 2 ^ width_bits))).
Proof.
  intros Hw. unfold format_hex, twos_complement.
  assert (Hk : 0 <= width_bits / 4) by (apply Z.div_pos; lia).
  pose proof (Z.pow_pos_nonneg 2 width_bits ltac:(lia) Hw) as Hp.
  destruct (Z.ltb_spec (width_bits / 4) 0); [lia|].
  eexists. split; [reflexivity|]. split.
  - intros Hv. assert (E : (val <? 0) = false) by (apply Z.ltb_ge; lia).
    rewrite E. cbv iota. rewrite E. rewrite Z.abs_eq by lia. cbn [append].
    apply hex_value_zeros_digits, Hv.
  - intros Hv. assert (E : (val <? 0) = true) by (apply Z.ltb_lt; lia).
    rewrite E. cbv iota.
    assert (E' : (val + 2 ^ width_bits <? 0) = true) by (apply Z.ltb_lt; lia).
    rewrite E'. eexists. split; [reflexivity|].
    rewrite Z.abs_neq by lia. apply hex_value_zeros_digits. lia.
Qed.

Lemma write_values_nonneg_width (flat : list Z) (max_val hex_digits : Z)
      (written : string) :
  0 <= hex_digits ->
  exists text, write_values flat max_val hex_digits written = Ok text.
Proof.
  intros Hk. revert written. induction flat as [|v flat IH]; intros written.
  - eexists. reflexivity.
  - cbn [write_values]. unfold format_hex.
    destruct (Z.ltb_spec hex_digits 0); [lia|]. cbn [Py.bind]. apply IH.
Qed.

Lemma write_values_negative_width (flat : list Z) (max_val hex_digits : Z)
      (written : string) :
  hex_digits < 0 -> flat <> [] ->
  exists msg, write_values flat max_val hex_digits written
              = Raise (Py.ValueError msg).
Proof.
  intros Hk Hne. destruct flat as [|v flat]; [congruence|].
  cbn [write_values]. unfold format_hex.
  destruct (Z.ltb_spec hex_digits 0); [|lia]. eexists. reflexivity.
Qed.

(** X14. A negative [width_bits]: on a tensor with an element the format
    specifier is ill-formed and [weights_to_hexfile] raises a [ValueError];
    on a tensor without elements it writes an empty file. *)
Theorem hexfile_negative_width
        (tensor_int : tensor Z) (filename : string) (width_bits : Z) (w : world) :
  width_bits < 0 ->
  match flatten tensor_int with
  | [] => weights_to_hexfile tensor_int filename width_bits w
          = Ok (mkWorld (PyDict.set filename (Text "") (files w)) (stdout w))
  | _ :: _ => exists msg,
      weights_to_hexfile tensor_int filename width_bits w
      = Raise (Py.ValueError msg)
  end.
Proof.
  intros Hw. unfold weights_to_hexfile.
  destruct (flatten tensor_int) as [|v flat] eqn:Ef.
  - reflexivity.
  - destruct (write_values_negative_width (v :: flat) (2 ^ width_bits)
                (width_bits / 4) "") as (msg & E).
    { apply Z.div_lt_upper_bound; lia. }
    { discriminate. }
    rewrite E. eexists. reflexivity.
Qed.

Lemma export_width_nonneg (name : string) : 0 <= export_width name / 4.
Proof. unfold export_width. destruct (Str.contains "bias" name); cbn; lia. Qed.

Lemma export_loop_returns
      (items : PyDict.dict Quantize.quantized_param) (base_path : string)
      (info : PyDict.dict Quantize.requant_params) (w : world) :
  exists info' w',
    export_loop items base_path info w = Ok (info', w')
    /\ stdout w' = List.app (stdout w) (map (Spec.saved_line base_path) items)
    /\ (forall path, PyDict.mem path (files w) = true ->
                     PyDict.mem path (files w') = true)
    /\ (forall name data,
           In (name, data) items ->
           PyDict.mem (base_path ++ Str.replace "." "_" name ++ ".hex")
                      (files w') = true).
Proof.
  revert info w. induction items as [|[name data] items IH]; intros info w.
  - eexists _, _. split; [reflexivity|]. cbn [map]. rewrite app_nil_r.
    split; [reflexivity|]. split; [auto|]. intros name data [].
  - cbn [export_loop]. unfold weights_to_hexfile.
    destruct (write_values_nonneg_width (flatten (Quantize.quantized data))
                (2 ^ export_width name) (export_width name / 4) ""
                (export_width_nonneg name)) as (text & E).
    rewrite E. cbn [Py.bind files stdout].
    match goal with
    | |- context [export_loop items base_path ?i ?w0] =>
        destruct (IH i w0) as (info' & w' & Hr & Hout & Hkeep & Hall)
    end.
    exists info', w'. split; [exact Hr|]. cbn [stdout files] in *.
    split; [|split].
    + rewrite Hout, <- app_assoc. reflexivity.
    + intros path Hp. apply Hkeep. rewrite mem_set, Hp. apply orb_true_r.
    + intros n d [Hin|Hin].
      * injection Hin as <- <-. apply Hkeep. apply mem_set_true.
      * eapply Hall, Hin.
Qed.

(** X15. What a call of [save_model_weights_hex] that returns has done:
    printed one line per entry, in order, and a last one for the document;
    left a hex file for every entry and the requantisation document; and
    removed no file. *)
Theorem save_model_weights_hex_effects
        (quantized_params : PyDict.dict Quantize.quantized_param)
        (base_path : string) (w w' : world) :
  save_model_weights_hex quantized_params base_path w = Ok w' ->
  stdout w'
  = List.app (stdout w)
      (List.app (map (Spec.saved_line base_path) quantized_params)
         ["Saved requant params to " ++ base_path ++ "requant_params.json"])
  /\ (forall name data,
         In (name, data) quantized_params ->
         PyDict.mem (base_path ++ Str.replace "." "_" name ++ ".hex")
                    (files w') = true)
  /\ (exists doc,
         PyDict.get (base_path ++ "requant_params.json") (files w')
         = Some (Json doc))
  /\ (forall path, PyDict.mem path (files w) = true ->
                   PyDict.mem path (files w') = true).
Proof.
  unfold save_model_weights_hex.
  destruct (export_loop_returns quantized_params base_path PyDict.empty w)
    as (info & w1 & Hr & Hout & Hkeep & Hall).
  rewrite Hr. cbn [Py.bind]. intros [= <-].
  cbn [stdout files]. split; [|split; [|split]].
  - rewrite Hout, <- app_assoc. reflexivity.
  - intros name data Hin. rewrite mem_set, (Hall name data Hin).
    apply orb_true_r.
  - eexists. apply get_set_same.
  - intros path Hp. rewrite mem_set, (Hkeep path Hp). apply orb_true_r.
Qed.

End ExportFacts.

(** ** The requantisation document *)

Section RequantDocument.

Import Quantize ConvertToHex.
Local Open Scope string_scope.
Local Open Scope Z_scope.

Lemma get_none {V : Type} (k : string) (d : PyDict.dict V) :
  ~ In k (map fst d) -> PyDict.get k d = None.
Proof.
  induction d as [|[k' v] d IH]; cbn; [reflexivity|].
  intros H. destruct (String.eqb_spec k k') as [->|N].
  - exfalso. apply H. left. reflexivity.
  - apply IH. intros C. apply H. right. exact C.
Qed.

Lemma get_in_keys {V : Type} (k : string) (v : V) (d : PyDict.dict V) :
  PyDict.get k d = Some v -> In k (map fst d).
Proof.
  induction d as [|[k' v'] d IH]; cbn; [discriminate|].
  destruct (String.eqb_spec k k') as [->|N]; [auto|]. intros H. right. auto.
Qed.

(** Assigning to a key that is absent appends the entry. *)
Lemma set_fresh {V : Type} (k : string) (v : V) (d : PyDict.dict V) :
  PyDict.mem k d = false -> PyDict.set k v d = (d ++ [(k, v)])%list.
Proof.
  unfold PyDict.mem. induction d as [|[k' v'] d IH]; cbn; [reflexivity|].
  destruct (String.eqb k k'); [discriminate|]. intros H. f_equal. apply IH, H.
Qed.

(** Assignment keeps the keys of a dictionary distinct. *)
Lemma set_keys {V : Type} (k : string) (v : V) (d : PyDict.dict V) :
  map fst (PyDict.set k v d)
  = if PyDict.mem k d then map fst d else (map fst d ++ [k])%list.
Proof.
  unfold PyDict.mem. induction d as [|[k' v'] d IH]; cbn; [reflexivity|].
  destruct (String.eqb_spec k k') as [->|N]; cbn; [reflexivity|].
  rewrite IH. destruct (PyDict.get k d); reflexivity.
Qed.

Lemma mem_iff_in_keys {V : Type} (k : string) (d : PyDict.dict V) :
  PyDict.mem k d = true <-> In k (map fst d).
Proof.
  unfold PyDict.mem. split.
  - destruct (PyDict.get k d) as [v|] eqn:E; [|discriminate].
    intros _. eapply get_in_keys, E.
  - intros H. destruct (PyDict.get k d) eqn:E; [reflexivity|].
    exfalso. revert H E. induction d as [|[k' v'] d IH]; cbn; [auto|].
    destruct (String.eqb_spec k k') as [->|N]; [discriminate|].
    intros [C|C] E; [congruence|auto].
Qed.

Lemma NoDup_snoc {A : Type} (l : list A) (a : A) :
  NoDup l -> ~ In a l -> NoDup (l ++ [a]).
Proof.
  induction 1 as [|x l Hx Hl IH]; cbn; intros Ha.
  - repeat constructor. intros [].
  - constructor.
    + rewrite in_app_iff. intros [C|[C|[]]]; [auto|]. apply Ha. left. symmetry. exact C.
    + apply IH. intros C. apply Ha. right. exact C.
Qed.

Lemma set_nodup {V : Type} (k : string) (v : V) (d : PyDict.dict V) :
  NoDup (map fst d) -> NoDup (map fst (PyDict.set k v d)).
Proof.
  intros H. rewrite set_keys. destruct (PyDict.mem k d) eqn:E; [exact H|].
  apply NoDup_snoc; [exact H|]. intros C. apply mem_iff_in_keys in C. congruence.
Qed.

(** In a dictionary, the requantisation parameters listed under a name are
    those of its entry. *)
Lemma get_requant_entries (items : PyDict.dict quantized_param) (k : string) :
  NoDup (map fst items) ->
  PyDict.get k (Spec.requant_entries items)
  = match PyDict.get k items with
    | Some p => requant p
    | None => None
    end.
Proof.
  induction items as [|[k0 p0] items IH]; cbn [map fst]; intros Hnd.
  - reflexivity.
  - inversion Hnd as [|? ? Hk0 Hrest]; subst.
    specialize (IH Hrest).
    cbn [Spec.requant_entries flat_map fst snd PyDict.get].
    fold (Spec.requant_entries items).
    destruct (String.eqb_spec k k0) as [->|N].
    + destruct (requant p0) as [r|]; cbn.
      * rewrite String.eqb_refl. reflexivity.
      * rewrite IH, (get_none k0 items Hk0). reflexivity.
    + destruct (requant p0) as [r|]; cbn.
      * destruct (String.eqb_spec k k0); [contradiction|]. exact IH.
      * exact IH.
Qed.

(** The document the export loop accumulates. *)
Lemma export_loop_info (items : PyDict.dict quantized_param) (base_path : string)
      (info info' : PyDict.dict requant_params) (w w' : world) :
  NoDup (map fst items) ->
  (forall k, In k (map fst items) -> PyDict.mem k info = false) ->
  export_loop items base_path info w = Ok (info', w') ->
  info' = (info ++ Spec.requant_entries items)%list.
Proof.
  revert info w. induction items as [|[name data] items IH]; intros info w Hnd Hfresh.
  - cbn. intros [= <- _]. rewrite app_nil_r. reflexivity.
  - cbn [export_loop].
    destruct (weights_to_hexfile _ _ _ w) as [w1|e]; [|discriminate].
    cbn [Py.bind]. intros Hr.
    cbn [map fst] in Hnd. inversion Hnd as [|? ? Hn Hrest]; subst.
    cbn [Spec.requant_entries flat_map fst snd].
    fold (Spec.requant_entries items).
    apply IH in Hr; [|exact Hrest|].
    + rewrite Hr. destruct (requant data) as [r|]; [|reflexivity].
      rewrite set_fresh by (apply Hfresh; left; reflexivity).
      rewrite <- app_assoc. reflexivity.
    + intros k Hk. destruct (requant data) as [r|].
      * rewrite mem_set. rewrite (Hfresh k (or_intror Hk)).
        destruct (String.eqb_spec k name) as [->|N]; [contradiction|reflexivity].
      * apply Hfresh. right. exact Hk.
Qed.

Lemma requant_document_aux
      (quantized_params : PyDict.dict quantized_param)
      (base_path : string) (w : world) :
  NoDup (map fst quantized_params) ->
  exists w',
    save_model_weights_hex quantized_params base_path w = Ok w'
    /\ PyDict.get (base_path ++ "requant_params.json") (files w')
       = Some (Json (Spec.requant_entries quantized_params)).
Proof.
  intros Hnd. unfold save_model_weights_hex.
  destruct (export_loop_returns quantized_params base_path PyDict.empty w)
    as (info & w1 & Hr & _).
  rewrite Hr. cbn [Py.bind]. eexists. split; [reflexivity|]. cbn [files].
  rewrite get_set_same.
  rewrite (export_loop_info _ _ PyDict.empty _ _ _ Hnd (fun k _ => eq_refl) Hr).
  reflexivity.
Qed.

(** X16. For a dictionary (distinct keys), the requantisation document
    [save_model_weights_hex] hands to [json.dump] lists, in the order of the
    dictionary, exactly the entries that have a "requant" field, each with
    that field. *)
Theorem requant_document
        (quantized_params : PyDict.dict quantized_param)
        (base_path : string) (w : world) :
  NoDup (map fst quantized_params) ->
  exists w',
    save_model_weights_hex quantized_params base_path w = Ok w'
    /\ PyDict.get (base_path ++ "requant_params.json") (files w')
       = Some (Json (Spec.requant_entries quantized_params))
    /\ forall name,
        PyDict.get name (Spec.requant_entries quantized_params)
        = match PyDict.get name quantized_params with
          | Some p => requant p
          | None => None
          end.
Proof.
  intros Hnd.
  destruct (requant_document_aux quantized_params base_path w Hnd)
    as (w' & Hs & Hj).
  exists w'. split; [exact Hs|]. split; [exact Hj|].
  intros name. apply get_requant_entries, Hnd.
Qed.

Lemma chain_step_nodup (num_bits bias_bits : Z) (st st' : chain_state)
      (entry : string * tensor Q) :
  NoDup (map fst (quantized_params st)) ->
  chain_step num_bits bias_bits st entry = Ok st' ->
  NoDup (map fst (quantized_params st')).
Proof.
  intros Hnd Hstep. destruct entry as [name param].
  destruct (classify name) eqn:Hk.
  - unfold chain_step in Hstep. rewrite Hk in Hstep.
    destruct (quantize_tensor param num_bits) as [[q_w w_scale]|e];
      [|discriminate].
    injection Hstep as <-. apply set_nodup, Hnd.
  - destruct (chain_step_bias_inv _ _ _ _ _ _ Hk Hstep)
      as (in_scale & w_scale & si & sh & _ & _ & _ & _ & ->).
    apply set_nodup, Hnd.
  - unfold chain_step in Hstep. rewrite Hk in Hstep. injection Hstep as <-.
    exact Hnd.
Qed.

Lemma chain_run_nodup (num_bits bias_bits : Z) (params : list (string * tensor Q))
      (st st' : chain_state) :
  NoDup (map fst (quantized_params st)) ->
  chain_run num_bits bias_bits st params = Ok st' ->
  NoDup (map fst (quantized_params st')).
Proof.
  revert st. induction params as [|entry params IH]; intros st Hnd;
    cbn [chain_run].
  - intros [= <-]. exact Hnd.
  - destruct (chain_step num_bits bias_bits st entry) as [st1|e] eqn:Hs;
      [|discriminate].
    cbn [Py.bind]. apply IH. eapply chain_step_nodup; eassumption.
Qed.

(** X17. The whole pipeline: when [quantize_model_weights] returns and the
    export of its result returns, the requantisation document has an entry
    for exactly the bias parameters of the model (names with "bias" and
    without "weight"), each with the shift 0 and the mantissa
    [round(real_scale)] below [2^16]. *)
Theorem pipeline_requant_document
        (model : list (string * tensor Q)) (num_bits bias_bits : Z)
        (out : PyDict.dict quantized_param) (base_path : string)
        (w w' : world) :
  quantize_model_weights model num_bits bias_bits = Ok out ->
  save_model_weights_hex out base_path w = Ok w' ->
  exists doc,
    PyDict.get (base_path ++ "requant_params.json") (files w')
    = Some (Json doc)
    /\ (forall name,
           PyDict.mem name doc = true
           <-> classify name = Bias /\ exists param, In (name, param) model)
    /\ (forall name r,
           PyDict.get name doc = Some r ->
           shift r = 0
           /\ scale_int r = Py.round (real_scale r)
           /\ scale_int r < 2 ^ 16).
Proof.
  unfold quantize_model_weights.
  destruct (chain_run num_bits bias_bits chain_init model) as [st|e] eqn:Hr;
    cbn [Py.bind]; [|discriminate].
  intros [= <-] Hsave.
  pose proof (chain_run_nodup _ _ _ chain_init _ (NoDup_nil _) Hr) as Hnd.
  destruct (chain_run_inv _ _ _ _ _ chain_inv_init Hr) as (_ & _ & _ & Hent).
  destruct (requant_document_aux (quantized_params st) base_path w Hnd)
    as (w1 & Hs & Hj).
  assert (w1 = w') by congruence. subst w1.
  exists (Spec.requant_entries (quantized_params st)).
  split; [exact Hj|].
  pose proof (get_requant_entries (quantized_params st)) as Hget.
  split.
  - intros name. unfold PyDict.mem at 1. rewrite (Hget name Hnd). split.
    + destruct (PyDict.get name (quantized_params st)) as [p|] eqn:Hg;
        [|discriminate].
      intros Hreq. specialize (Hent name p Hg). unfold Spec.entry_ok in Hent.
      assert (Hm : PyDict.mem name (quantized_params st) = true)
        by (unfold PyDict.mem; rewrite Hg; reflexivity).
      apply (chain_run_keys _ _ _ _ _ name Hr) in Hm.
      destruct Hm as [Hm|(_ & Hin)]; [discriminate|].
      destruct (classify name); [|auto|contradiction].
      rewrite Hent in Hreq. discriminate.
    + intros (Hk & Hin).
      assert (Hm : PyDict.mem name (quantized_params st) = true).
      { apply (chain_run_keys _ _ _ _ _ name Hr). right.
        split; [congruence|exact Hin]. }
      unfold PyDict.mem in Hm.
      destruct (PyDict.get name (quantized_params st)) as [p|] eqn:Hg;
        [|discriminate].
      specialize (Hent name p Hg). unfold Spec.entry_ok in Hent.
      rewrite Hk in Hent. destruct Hent as (r & -> & _). reflexivity.
  - intros name r. rewrite (Hget name Hnd).
    destruct (PyDict.get name (quantized_params st)) as [p|] eqn:Hg;
      [|discriminate].
    intros Hreq. specialize (Hent name p Hg). unfold Spec.entry_ok in Hent.
    destruct (classify name).
    + congruence.
    + destruct Hent as (r' & Er & H1 & H2 & H3 & _).
      assert (r' = r) by congruence. subst r'. auto.
    + contradiction.
Qed.

End RequantDocument.

(** ** File names *)

Section FurtherFacts.

Import Quantize ConvertToHex.
Local Open Scope string_scope.

Lemma prefix_dot (c : ascii) (s : string) :
  String.prefix "." (String c s) = Ascii.eqb "." c.
Proof.
  cbn [String.prefix]. destruct (ascii_dec "." c) as [<-|N].
  - destruct s; reflexivity.
  - symmetry. apply Ascii.eqb_neq, N.
Qed.

(** X18. The stem of a hex file name: [name.replace(".", "_")] has the
    length of the name and no dot left, so the only dots of the file name
    are those of the base path and of the extension. *)
Theorem sanitized_name_has_no_dot (name : string) :
  Str.contains "." (Str.replace "." "_" name) = false
  /\ String.length (Str.replace "." "_" name) = String.length name.
Proof.
  unfold Str.replace. induction name as [|c name [IH1 IH2]].
  - split; reflexivity.
  - cbn [Str.replace_from]. rewrite prefix_dot.
    destruct (Ascii.eqb_spec "."%char c) as [<-|N].
    + cbn [String.length Nat.sub append]. split.
      * cbn [Str.contains]. rewrite prefix_dot, IH1. reflexivity.
      * cbn [String.length]. f_equal. exact IH2.
    + split.
      * cbn [Str.contains]. rewrite prefix_dot, IH1.
        apply Ascii.eqb_neq in N. rewrite N. reflexivity.
      * cbn [String.length]. f_equal. exact IH2.
Qed.

End FurtherFacts.

(** ** The further properties on sample inputs *)

Section FurtherInstances.

Import Quantize ConvertToHex.
Local Open Scope string_scope.
Local Open Scope Z_scope.

Lemma sample_chain_entries :
  exists out,
    quantize_model_weights Samples.model 8 32 = Ok out
    /\ forall name p,
        PyDict.get name out = Some p ->
        (classify name = Weight /\ requant p = None)
        \/ (classify name = Bias
            /\ exists r,
                requant p = Some r
                /\ shift r = 0
                /\ scale_int r = Py.round (real_scale r)
                /\ scale_int r < 2 ^ 16
                /\ (real_scale r * scale p == 1)%Q).
Proof.
  eexists. split; [vm_compute; reflexivity|].
  apply (quantize_model_weights_entries Samples.model 8 32).
  vm_compute. reflexivity.
Defined.

Lemma sample_chain_keys :
  exists out,
    quantize_model_weights
      (("running_mean", Samples.bias) :: Samples.model) 8 32 = Ok out
    /\ (PyDict.mem "running_mean" out = true
        <-> (Str.contains "weight" "running_mean" = true
             \/ Str.contains "bias" "running_mean" = true)
            /\ exists param,
                In ("running_mean", param)
                   (("running_mean", Samples.bias) :: Samples.model)).
Proof.
  eexists. split; [vm_compute; reflexivity|].
  apply (quantize_model_weights_keys
           (("running_mean", Samples.bias) :: Samples.model) 8 32).
  vm_compute. reflexivity.
Defined.

Lemma sample_other_ignored :
  Str.contains "weight" "running_mean" = false
  /\ Str.contains "bias" "running_mean" = false
  /\ quantize_model_weights
       ([("layer1.weight", Samples.weight)]
          ++ ("running_mean", Samples.bias) :: [("layer1.bias", Samples.bias)])
       8 32
     = quantize_model_weights
         ([("layer1.weight", Samples.weight)] ++ [("layer1.bias", Samples.bias)])
         8 32.
Proof.
  split; [reflexivity|]. split; [reflexivity|].
  apply (other_parameters_are_ignored _ _ "running_mean" Samples.bias 8 32
           eq_refl eq_refl).
Defined.

Lemma sample_ints_in_range : Forall (Spec.in_range 8) (flatten Samples.ints).
Proof. repeat constructor; unfold Spec.in_range; cbn; lia. Qed.

Lemma sample_round_trip :
  8 mod 4 = 0
  /\ exists text w',
      weights_to_hexfile Samples.ints "w.hex" 8 (mkWorld [] []) = Ok w'
      /\ PyDict.get "w.hex" (files w') = Some (Text text)
      /\ Spec.read_hex_file 8 text = Some (flatten Samples.ints).
Proof.
  split; [reflexivity|].
  apply (hexfile_round_trip Samples.ints "w.hex" 8 (mkWorld [] []) eq_refl
           sample_ints_in_range).
Defined.

Lemma sample_hexfile_size :
  8 mod 4 = 0
  /\ exists text w',
      weights_to_hexfile Samples.ints "w.hex" 8 (mkWorld [] []) = Ok w'
      /\ PyDict.get "w.hex" (files w') = Some (Text text)
      /\ Z.of_nat (String.length text)
         = Z.of_nat (Tensor.numel Samples.ints) * (8 / 4 + 1)
      /\ forall other, other <> "w.hex" ->
                       PyDict.get other (files w')
                       = PyDict.get other (files (mkWorld [] [])).
Proof.
  split; [reflexivity|].
  apply (hexfile_size Samples.ints "w.hex" 8 (mkWorld [] []) eq_refl
           sample_ints_in_range).
Defined.

Lemma sample_unwrapped_value :
  0 <= 2
  /\ exists line,
      format_hex (twos_complement (-128) (2 ^ 2)) (2 / 4) = Ok line
      /\ (0 <= -128 -> Spec.hex_value line = Some (-128))
      /\ (-128 < - 2 ^ 2 ->
          exists digits,
            line = "-" ++ digits
            /\ Spec.hex_value digits = Some (- (-128 + 2 ^ 2))).
Proof.
  split; [lia|].
  apply (out_of_range_values_are_not_wrapped (-128) 2). lia.
Defined.

Lemma sample_negative_width :
  -4 < 0
  /\ exists msg,
      weights_to_hexfile Samples.ints "w.hex" (-4) (mkWorld [] [])
      = Raise (Py.ValueError msg).
Proof.
  split; [lia|].
  apply (hexfile_negative_width Samples.ints "w.hex" (-4) (mkWorld [] [])). lia.
Defined.

Lemma sample_params_nodup : NoDup (map fst Samples.params).
Proof.
  repeat constructor; cbn; intros C;
    repeat (destruct C as [C|C]; [discriminate C|]); exact C.
Qed.

Lemma sample_requant_document :
  NoDup (map fst Samples.params)
  /\ exists w',
      save_model_weights_hex Samples.params "weights/" (mkWorld [] []) = Ok w'
      /\ PyDict.get ("weights/" ++ "requant_params.json") (files w')
         = Some (Json (Spec.requant_entries Samples.params))
      /\ forall name,
          PyDict.get name (Spec.requant_entries Samples.params)
          = match PyDict.get name Samples.params with
            | Some p => requant p
            | None => None
            end.
Proof.
  split; [exact sample_params_nodup|].
  apply (requant_document Samples.params "weights/" (mkWorld [] [])
           sample_params_nodup).
Defined.

Lemma sample_export_effects :
  exists w',
    save_model_weights_hex Samples.params "weights/" (mkWorld [] []) = Ok w'
    /\ stdout w'
       = List.app (stdout (mkWorld [] []))
           (List.app (map (Spec.saved_line "weights/") Samples.params)
              ["Saved requant params to " ++ "weights/" ++ "requant_params.json"])
    /\ (forall name data,
           In (name, data) Samples.params ->
           PyDict.mem ("weights/" ++ Str.replace "." "_" name ++ ".hex")
                      (files w') = true)
    /\ (exists doc,
           PyDict.get ("weights/" ++ "requant_params.json") (files w')
           = Some (Json doc))
    /\ (forall path, PyDict.mem path (files (mkWorld [] [])) = true ->
                     PyDict.mem path (files w') = true).
Proof.
  eexists. split; [vm_compute; reflexivity|].
  apply (save_model_weights_hex_effects Samples.params "weights/" (mkWorld [] [])).
  vm_compute. reflexivity.
Defined.

Lemma sample_pipeline :
  exists out w',
    quantize_model_weights Samples.model 8 32 = Ok out
    /\ save_model_weights_hex out "weights/" (mkWorld [] []) = Ok w'
    /\ exists doc,
        PyDict.get ("weights/" ++ "requant_params.json") (files w')
        = Some (Json doc)
        /\ (forall name,
               PyDict.mem name doc = true
               <-> classify name = Bias
                   /\ exists param, In (name, param) Samples.model)
        /\ (forall name r,
               PyDict.get name doc = Some r ->
               shift r = 0
               /\ scale_int r = Py.round (real_scale r)
               /\ scale_int r < 2 ^ 16).
Proof.
  eexists. eexists. split; [vm_compute; reflexivity|].
  split; [vm_compute; reflexivity|].
  eapply (pipeline_requant_document Samples.model 8 32 _ "weights/"
            (mkWorld [] []) _); vm_compute; reflexivity.
Defined.

End FurtherInstances.
